(** * Relation-change analysis of the schema migration planner

    A shallow embedding of
    [src/infrastructure/knex/utils/migration/relation-changes.ts]:
    the relation records, the diff accumulator that the planner mutates,
    the three planners (deleted, created, updated relations) and the
    type-change resolver, followed by the properties proved about them.

    The TypeScript functions are [async] and return [Promise<void>]; the
    only real suspension point is the table-definition lookup.  A function
    of the source is modelled as a statement that transforms the diff and
    either completes or rejects, keeping the diff as mutated so far. *)

From Stdlib Require Import ZArith String List Bool.
From stdpp Require Import base option list gmap strings.

Import ListNotations.

(** ** JavaScript values *)

(** What [targetTable] and [targetTableName] can hold: nothing, a plain
    table name, or a reference object [{ id }]. *)
Inductive JsValue :=
| Undefined
| Str (s : string)
| TableRef (id : Z).

#[global] Instance JsValue_eq_dec : EqDecision JsValue.
Proof. solve_decision. Defined.

(** Truthiness of a string: only the empty string is falsy. *)
Definition truthyString (s : string) : bool := negb (String.eqb s "").

(** Truthiness of a value. *)
Definition truthy (v : JsValue) : bool :=
  match v with
  | Undefined => false
  | Str s => truthyString s
  | TableRef _ => true
  end.

(** Truthiness of an optional string property. *)
Definition present (o : option string) : bool :=
  match o with
  | Some s => truthyString s
  | None => false
  end.

(** Truthiness of a number: zero is falsy. *)
Definition truthyNumber (n : Z) : bool := negb (Z.eqb n 0).

(** [o || dflt] on an optional string property. *)
Definition orElse (o : option string) (dflt : string) : string :=
  match o with
  | Some s => if truthyString s then s else dflt
  | None => dflt
  end.

(** ** Relations *)

Module Relation.
Record t := mk {
  id : Z;
  propertyName : string;
  type : string;
  sourceTableName : option string;
  targetTable : JsValue;
  targetTableName : JsValue;
  inversePropertyName : option string;
  foreignKeyColumn : option string;
  isNullable : option bool;
  junctionTableName : option string;
}.
End Relation.

Definition many_to_one : string := "many-to-one".
Definition one_to_one : string := "one-to-one".
Definition one_to_many : string := "one-to-many".
Definition many_to_many : string := "many-to-many".

(** ** Entries of the diff *)

Module ColumnDef.
Record t := mk {
  name : string;
  type : string;
  isNullable : bool;
  isForeignKey : bool;
  foreignKeyTarget : JsValue;
  foreignKeyColumn : string;
}.
End ColumnDef.

Module ColumnDrop.
Record t := mk {
  name : string;
  isForeignKey : bool;
}.
End ColumnDrop.

(** An entry of [crossTableOperations]; the constructor is the
    [operation] tag. *)
Module CrossTableOp.
Inductive t :=
| dropColumn (targetTable : JsValue) (columnName : string) (isForeignKey : bool)
| createColumn (targetTable : JsValue) (column : ColumnDef.t).
End CrossTableOp.

Module JunctionCreate.
Record t := mk {
  tableName : string;
  sourceTable : string;
  targetTable : JsValue;
  sourceColumn : string;
  targetColumn : string;
}.
End JunctionCreate.

Module JunctionDrop.
Record t := mk {
  tableName : option string;
  reason : string;
}.
End JunctionDrop.

(** Entries of [junctionTables.update] are never built here; a caller may
    hand some in. *)
Inductive JunctionUpdate :=
| CallerUpdate (payload : string).

(** ** The diff accumulator *)

Module Columns.
Record t := mk {
  create : option (list ColumnDef.t);
  delete : option (list ColumnDrop.t);
}.
End Columns.

(** [junctionTables], when it is there, has its three lists: that is how
    the planners make it, all at once. *)
Module JunctionTables.
Record t := mk {
  create : list JunctionCreate.t;
  drop : list JunctionDrop.t;
  update : list JunctionUpdate;
}.

(** [{ create: [], drop: [], update: [] }] *)
Definition empty : t := mk [] [] [].
End JunctionTables.

Module Diff.
Record t := mk {
  columns : option Columns.t;
  crossTableOperations : option (list CrossTableOp.t);
  junctionTables : option JunctionTables.t;
}.
End Diff.

(** ** Statements over the diff *)

Inductive JsError :=
| TypeError
| Error (message : string).

(** How a statement ends: normally, or by throwing; the diff is the
    accumulator as it stands at that point. *)
Inductive Outcome :=
| Ok (d : Diff.t)
| Throw (e : JsError) (d : Diff.t).

Definition Stmt : Type := Diff.t -> Outcome.

Definition skip : Stmt := Ok.

Definition throw (e : JsError) : Stmt := Throw e.

Definition seq (s1 s2 : Stmt) : Stmt :=
  fun d =>
    match s1 d with
    | Ok d' => s2 d'
    | Throw e d' => Throw e d'
    end.

Declare Scope stmt_scope.
Delimit Scope stmt_scope with stmt.
Bind Scope stmt_scope with Stmt.
Notation "x ;; z" := (seq x z)
  (at level 100, z at level 200, right associativity) : stmt_scope.
Local Open Scope stmt_scope.

(** [for (const x of xs) body(x)] *)
Fixpoint forOf {A : Type} (xs : list A) (body : A -> Stmt) : Stmt :=
  match xs with
  | [] => skip
  | x :: xs' => body x ;; forOf xs' body
  end.

Definition diffOf (o : Outcome) : Diff.t :=
  match o with
  | Ok d => d
  | Throw _ d => d
  end.

(** *** Mutations of the accumulator *)

(** [diff.columns.create.push(e)] *)
Definition pushColumnsCreate (e : ColumnDef.t) : Stmt :=
  fun d =>
    match Diff.columns d with
    | Some c =>
        match Columns.create c with
        | Some l =>
            Ok (Diff.mk (Some (Columns.mk (Some (l ++ [e])) (Columns.delete c)))
                  (Diff.crossTableOperations d) (Diff.junctionTables d))
        | None => Throw TypeError d
        end
    | None => Throw TypeError d
    end.

(** [diff.columns.delete.push(e)] *)
Definition pushColumnsDelete (e : ColumnDrop.t) : Stmt :=
  fun d =>
    match Diff.columns d with
    | Some c =>
        match Columns.delete c with
        | Some l =>
            Ok (Diff.mk (Some (Columns.mk (Columns.create c) (Some (l ++ [e]))))
                  (Diff.crossTableOperations d) (Diff.junctionTables d))
        | None => Throw TypeError d
        end
    | None => Throw TypeError d
    end.

(** [if (!diff.crossTableOperations) diff.crossTableOperations = []] *)
Definition ensureCrossTableOperations : Stmt :=
  fun d =>
    match Diff.crossTableOperations d with
    | Some _ => Ok d
    | None => Ok (Diff.mk (Diff.columns d) (Some []) (Diff.junctionTables d))
    end.

(** [diff.crossTableOperations.push(e)] *)
Definition pushCrossTableOperation (e : CrossTableOp.t) : Stmt :=
  fun d =>
    match Diff.crossTableOperations d with
    | Some l => Ok (Diff.mk (Diff.columns d) (Some (l ++ [e])) (Diff.junctionTables d))
    | None => Throw TypeError d
    end.

(** [if (!diff.junctionTables) diff.junctionTables = { create: [], drop: [], update: [] }] *)
Definition ensureJunctionTables : Stmt :=
  fun d =>
    match Diff.junctionTables d with
    | Some _ => Ok d
    | None =>
        Ok (Diff.mk (Diff.columns d) (Diff.crossTableOperations d)
              (Some JunctionTables.empty))
    end.

(** [diff.junctionTables.create.push(e)] *)
Definition pushJunctionCreate (e : JunctionCreate.t) : Stmt :=
  fun d =>
    match Diff.junctionTables d with
    | Some j =>
        Ok (Diff.mk (Diff.columns d) (Diff.crossTableOperations d)
              (Some (JunctionTables.mk (JunctionTables.create j ++ [e])
                       (JunctionTables.drop j) (JunctionTables.update j))))
    | None => Throw TypeError d
    end.

(** [diff.junctionTables.drop.push(e)] *)
Definition pushJunctionDrop (e : JunctionDrop.t) : Stmt :=
  fun d =>
    match Diff.junctionTables d with
    | Some j =>
        Ok (Diff.mk (Diff.columns d) (Diff.crossTableOperations d)
              (Some (JunctionTables.mk (JunctionTables.create j)
                       (JunctionTables.drop j ++ [e]) (JunctionTables.update j))))
    | None => Throw TypeError d
    end.

(** ** Insertion-ordered maps keyed by relation id ([new Map(entries)]) *)

Module JsMap.
Section Ops.
Context {V : Type}.

Definition t : Type := list (Z * V).

(** [m.set(k, v)]: an existing key keeps its position. *)
Fixpoint set (k : Z) (v : V) (m : t) : t :=
  match m with
  | [] => [(k, v)]
  | (k', v') :: m' =>
      if Z.eqb k' k then (k', v) :: m' else (k', v') :: set k v m'
  end.

(** [m.get(k)] *)
Fixpoint get (k : Z) (m : t) : option V :=
  match m with
  | [] => None
  | (k', v') :: m' => if Z.eqb k' k then Some v' else get k m'
  end.

(** [m.has(k)] *)
Definition has (k : Z) (m : t) : bool :=
  match get k m with
  | Some _ => true
  | None => false
  end.

(** [new Map(entries)] *)
Definition ofEntries (entries : list (Z * V)) : t :=
  fold_left (fun m e => set (fst e) (snd e) m) entries [].

Definition keys (m : t) : list Z := List.map fst m.
End Ops.
Arguments t : clear implicits.
End JsMap.

(** ** The table-definition lookup *)

(** A row [{ id, name }] of [table_definition]. *)
Module TableRow.
Record t := mk {
  id : Z;
  name : string;
}.
End TableRow.

(** [knex('table_definition').select('id', 'name').whereIn('id', ids)]:
    the rows returned for the identifiers asked for.  The query is taken to
    answer; were it to fail, the analysis would reject before it touches
    the diff. *)
Definition Knex : Type := list Z -> list TableRow.t.

(** [typeof rel.targetTable === 'object' ? rel.targetTable.id : null] *)
Definition targetTableIdOf (rel : Relation.t) : option Z :=
  match Relation.targetTable rel with
  | TableRef i => Some i
  | _ => None
  end.

(** [[...oldRelations, ...newRelations].map(...).filter(id => id != null)] *)
Definition targetTableIds (oldRelations newRelations : list Relation.t) : list Z :=
  omap targetTableIdOf (oldRelations ++ newRelations).

(** The id-to-name map; the lookup is made only when some identifier is
    asked for, and a later row overrides an earlier one with the same id. *)
Definition buildTargetTablesMap (knex : Knex) (ids : list Z) : gmap Z string :=
  if Nat.ltb 0 (length ids)
  then fold_left (fun m row => <[TableRow.id row := TableRow.name row]> m) (knex ids) ∅
  else ∅.

(** [targetTablesMap.get(id)] as a value. *)
Definition mapGet (m : gmap Z string) (i : Z) : JsValue :=
  match m !! i with
  | Some n => Str n
  | None => Undefined
  end.

(** The body of [oldRelations.map(rel => ...)] and of
    [newRelations.map(rel => ...)]: the copy of [rel] with
    [sourceTableName] and [targetTableName] filled in. *)
Definition resolveRelation (tableName : string) (targetTablesMap : gmap Z string)
    (rel : Relation.t) : Relation.t :=
  let targetTableId := targetTableIdOf rel in
  Relation.mk
    (Relation.id rel)
    (Relation.propertyName rel)
    (Relation.type rel)
    (Some (orElse (Relation.sourceTableName rel) tableName))
    (Relation.targetTable rel)
    (if truthy (Relation.targetTableName rel)
     then Relation.targetTableName rel
     else
       match targetTableId with
       | Some i =>
           if truthyNumber i
           then mapGet targetTablesMap i
           else Relation.targetTable rel
       | None => Relation.targetTable rel
       end)
    (Relation.inversePropertyName rel)
    (Relation.foreignKeyColumn rel)
    (Relation.isNullable rel)
    (Relation.junctionTableName rel).

(** ** The classifier *)

Definition relMap (relations : list Relation.t) : JsMap.t Relation.t :=
  JsMap.ofEntries (List.map (fun r => (Relation.id r, r)) relations).

(** [oldRelations.filter(r => !newRelMap.has(r.id)).map(r => r.id)] *)
Definition deletedRelIds (oldRelations : list Relation.t)
    (newRelMap : JsMap.t Relation.t) : list Z :=
  List.map Relation.id
    (List.filter (fun r => negb (JsMap.has (Relation.id r) newRelMap)) oldRelations).

(** [newRelations.filter(r => !oldRelMap.has(r.id)).map(r => r.id)] *)
Definition createdRelIds (newRelations : list Relation.t)
    (oldRelMap : JsMap.t Relation.t) : list Z :=
  List.map Relation.id
    (List.filter (fun r => negb (JsMap.has (Relation.id r) oldRelMap)) newRelations).

(** The pairs the update planner works on: the entries of [newRelMap], in
    order, whose id [oldRelMap] also holds. *)
Definition matchedPairs (oldRelMap newRelMap : JsMap.t Relation.t)
    : list (Z * (Relation.t * Relation.t)) :=
  omap (fun e => match JsMap.get (fst e) oldRelMap with
                 | Some oldRel => Some (fst e, (oldRel, snd e))
                 | None => None
                 end) newRelMap.

Definition matchedRelIds (oldRelMap newRelMap : JsMap.t Relation.t) : list Z :=
  List.map fst (matchedPairs oldRelMap newRelMap).

(** [relations.find(r => r.id === relId)] *)
Definition findRelation (relations : list Relation.t) (relId : Z) : option Relation.t :=
  List.find (fun r => Z.eqb (Relation.id r) relId) relations.

(** The fields the update planner compares. *)
Inductive Change :=
| propertyNameChange
| typeChange
| targetChange
| nullableChange.

(** The [changes] list of the update planner, one label per message.
    [!==] on two reference objects compares identities; on the copies made
    by the resolution step it is taken here as equality of the values. *)
Definition changes (oldRel newRel : Relation.t) : list Change :=
  (if String.eqb (Relation.propertyName oldRel) (Relation.propertyName newRel)
   then [] else [propertyNameChange]) ++
  (if String.eqb (Relation.type oldRel) (Relation.type newRel)
   then [] else [typeChange]) ++
  (if bool_decide (Relation.targetTableName oldRel = Relation.targetTableName newRel)
   then [] else [targetChange]) ++
  (if bool_decide (Relation.isNullable oldRel = Relation.isNullable newRel)
   then [] else [nullableChange]).

(** The message of the error thrown when a one-to-many side has no
    [inversePropertyName]. *)
Definition missingInverseMessage (propertyName : string) : string :=
  "O2M relation '" +:+ propertyName +:+
  "' must have inversePropertyName to determine FK column name".

(** ** The planners *)

Section Planners.

(** The naming helpers imported from [shared/utils/naming-helpers]. *)
Variable getForeignKeyColumnName : string -> string.
Variable getJunctionTableName : string -> string -> JsValue -> string.
Variable getJunctionColumnNames : string -> string -> JsValue -> string * string.

(** The column object pushed on [columns.create] for the relation's own
    foreign key. *)
Definition ownColumn (rel : Relation.t) : ColumnDef.t :=
  ColumnDef.mk
    (orElse (Relation.foreignKeyColumn rel)
       (getForeignKeyColumnName (Relation.propertyName rel)))
    "int"
    (default true (Relation.isNullable rel))
    true
    (Relation.targetTableName rel)
    "id".

(** The column object of a [createColumn] operation on the target table. *)
Definition inverseColumn (tableName : string) (rel : Relation.t) (inverse : string)
    : ColumnDef.t :=
  ColumnDef.mk
    (orElse (Relation.foreignKeyColumn rel) (getForeignKeyColumnName inverse))
    "int"
    true
    true
    (Str tableName)
    "id".

(** The object pushed on [columns.delete] for the relation's own foreign
    key. *)
Definition ownColumnDrop (rel : Relation.t) : ColumnDrop.t :=
  ColumnDrop.mk
    (orElse (Relation.foreignKeyColumn rel)
       (getForeignKeyColumnName (Relation.propertyName rel)))
    true.

(** The [dropColumn] operation on the target table. *)
Definition inverseColumnDrop (rel : Relation.t) (inverse : string) : CrossTableOp.t :=
  CrossTableOp.dropColumn
    (Relation.targetTableName rel)
    (orElse (Relation.foreignKeyColumn rel) (getForeignKeyColumnName inverse))
    true.

(** The object pushed on [junctionTables.create]. *)
Definition junctionFor (tableName : string) (rel : Relation.t) : JunctionCreate.t :=
  let junctionTableName :=
    getJunctionTableName tableName (Relation.propertyName rel)
      (Relation.targetTableName rel) in
  let columnNames :=
    getJunctionColumnNames tableName (Relation.propertyName rel)
      (Relation.targetTableName rel) in
  JunctionCreate.mk junctionTableName tableName (Relation.targetTableName rel)
    (fst columnNames) (snd columnNames).

(** [rel.inversePropertyName] when it is truthy. *)
Definition inverseOf (rel : Relation.t) : option string :=
  match Relation.inversePropertyName rel with
  | Some s => if truthyString s then Some s else None
  | None => None
  end.

(** Body of the loop of [handleDeletedRelations]. *)
Definition deletedRelation (oldRelations : list Relation.t) (relId : Z) : Stmt :=
  match findRelation oldRelations relId with
  | None => skip
  | Some rel =>
      if String.eqb (Relation.type rel) many_to_one
         || String.eqb (Relation.type rel) one_to_one
      then pushColumnsDelete (ownColumnDrop rel)
      else if String.eqb (Relation.type rel) one_to_many
      then
        match inverseOf rel with
        | None => skip
        | Some inverse =>
            ensureCrossTableOperations ;;
            pushCrossTableOperation (inverseColumnDrop rel inverse)
        end
      else if String.eqb (Relation.type rel) many_to_many
      then
        ensureJunctionTables ;;
        pushJunctionDrop
          (JunctionDrop.mk (Relation.junctionTableName rel) "Relation deleted")
      else skip
  end.

Definition handleDeletedRelations (oldRelations : list Relation.t)
    (deletedRelIds : list Z) : Stmt :=
  forOf deletedRelIds (deletedRelation oldRelations).

(** Body of the loop of [handleCreatedRelations]. *)
Definition createdRelation (newRelations : list Relation.t) (tableName : string)
    (relId : Z) : Stmt :=
  match findRelation newRelations relId with
  | None => skip
  | Some rel =>
      if String.eqb (Relation.type rel) many_to_one
         || String.eqb (Relation.type rel) one_to_one
      then pushColumnsCreate (ownColumn rel)
      else if String.eqb (Relation.type rel) one_to_many
      then
        match inverseOf rel with
        | None => skip
        | Some inverse =>
            ensureCrossTableOperations ;;
            pushCrossTableOperation
              (CrossTableOp.createColumn (Relation.targetTableName rel)
                 (inverseColumn tableName rel inverse))
        end
      else if String.eqb (Relation.type rel) many_to_many
      then
        ensureJunctionTables ;;
        pushJunctionCreate (junctionFor tableName rel)
      else skip
  end.

Definition handleCreatedRelations (newRelations : list Relation.t)
    (createdRelIds : list Z) (tableName : string) : Stmt :=
  forOf createdRelIds (createdRelation newRelations tableName).

Definition handleRelationTypeChange (oldRel newRel : Relation.t) (tableName : string)
    : Stmt :=
  ensureCrossTableOperations ;;
  ensureJunctionTables ;;
  let oldType := Relation.type oldRel in
  let newType := Relation.type newRel in
  if (String.eqb oldType many_to_one || String.eqb oldType one_to_one)
     && String.eqb newType many_to_many
  then
    pushColumnsDelete (ownColumnDrop oldRel) ;;
    pushJunctionCreate (junctionFor tableName newRel)
  else if String.eqb oldType many_to_many
          && (String.eqb newType many_to_one || String.eqb newType one_to_one)
  then
    pushJunctionDrop
      (JunctionDrop.mk (Relation.junctionTableName oldRel)
         "Relation type changed from M2M to M2O/O2O") ;;
    pushColumnsCreate (ownColumn newRel)
  else if String.eqb oldType one_to_many && String.eqb newType many_to_many
  then
    match inverseOf oldRel with
    | None => throw (Error (missingInverseMessage (Relation.propertyName oldRel)))
    | Some inverse =>
        pushCrossTableOperation (inverseColumnDrop oldRel inverse) ;;
        pushJunctionCreate (junctionFor tableName newRel)
    end
  else if String.eqb oldType many_to_many && String.eqb newType one_to_many
  then
    pushJunctionDrop
      (JunctionDrop.mk (Relation.junctionTableName oldRel)
         "Relation type changed from M2M to O2M") ;;
    match inverseOf newRel with
    | None => throw (Error (missingInverseMessage (Relation.propertyName newRel)))
    | Some inverse =>
        pushCrossTableOperation
          (CrossTableOp.createColumn (Relation.targetTableName newRel)
             (inverseColumn tableName newRel inverse))
    end
  else if (String.eqb oldType many_to_one || String.eqb oldType one_to_one)
          && String.eqb newType one_to_many
  then
    pushColumnsDelete (ownColumnDrop oldRel) ;;
    match inverseOf newRel with
    | None => throw (Error (missingInverseMessage (Relation.propertyName newRel)))
    | Some inverse =>
        pushCrossTableOperation
          (CrossTableOp.createColumn (Relation.targetTableName newRel)
             (inverseColumn tableName newRel inverse))
    end
  else if String.eqb oldType one_to_many
          && (String.eqb newType many_to_one || String.eqb newType one_to_one)
  then
    match inverseOf oldRel with
    | None => throw (Error (missingInverseMessage (Relation.propertyName oldRel)))
    | Some inverse =>
        pushCrossTableOperation (inverseColumnDrop oldRel inverse) ;;
        pushColumnsCreate (ownColumn newRel)
    end
  else if (String.eqb oldType many_to_one && String.eqb newType one_to_one)
          || (String.eqb oldType one_to_one && String.eqb newType many_to_one)
  then skip
  else skip.

(** Body of the loop of [handleUpdatedRelations], on one entry of
    [newRelMap]. *)
Definition updatedRelation (oldRelMap : JsMap.t Relation.t) (tableName : string)
    (entry : Z * Relation.t) : Stmt :=
  let relId := fst entry in
  let newRel := snd entry in
  match JsMap.get relId oldRelMap with
  | None => skip
  | Some oldRel =>
      if Nat.ltb 0 (length (changes oldRel newRel))
      then
        if negb (String.eqb (Relation.type oldRel) (Relation.type newRel))
        then handleRelationTypeChange oldRel newRel tableName
        else skip
      else skip
  end.

Definition handleUpdatedRelations (oldRelMap newRelMap : JsMap.t Relation.t)
    (tableName : string) : Stmt :=
  forOf newRelMap (updatedRelation oldRelMap tableName).

Definition analyzeRelationChanges (knex : Knex)
    (oldRelations newRelations : list Relation.t) (tableName : string) : Stmt :=
  let targetTableIds := targetTableIds oldRelations newRelations in
  let targetTablesMap := buildTargetTablesMap knex targetTableIds in
  let oldRelations := List.map (resolveRelation tableName targetTablesMap) oldRelations in
  let newRelations := List.map (resolveRelation tableName targetTablesMap) newRelations in
  let oldRelMap := relMap oldRelations in
  let newRelMap := relMap newRelations in
  let deletedRelIds := deletedRelIds oldRelations newRelMap in
  let createdRelIds := createdRelIds newRelations oldRelMap in
  handleDeletedRelations oldRelations deletedRelIds ;;
  handleCreatedRelations newRelations createdRelIds tableName ;;
  handleUpdatedRelations oldRelMap newRelMap tableName.

End Planners.

(** ** Reading the accumulator *)

(** The six lists of operations of a diff; a container that is not there
    holds no operation. *)
Definition columnsCreateOf (d : Diff.t) : list ColumnDef.t :=
  match Diff.columns d with
  | Some c => default [] (Columns.create c)
  | None => []
  end.

Definition columnsDeleteOf (d : Diff.t) : list ColumnDrop.t :=
  match Diff.columns d with
  | Some c => default [] (Columns.delete c)
  | None => []
  end.

Definition crossTableOf (d : Diff.t) : list CrossTableOp.t :=
  default [] (Diff.crossTableOperations d).

Definition junctionCreateOf (d : Diff.t) : list JunctionCreate.t :=
  match Diff.junctionTables d with
  | Some j => JunctionTables.create j
  | None => []
  end.

Definition junctionDropOf (d : Diff.t) : list JunctionDrop.t :=
  match Diff.junctionTables d with
  | Some j => JunctionTables.drop j
  | None => []
  end.

Definition junctionUpdateOf (d : Diff.t) : list JunctionUpdate :=
  match Diff.junctionTables d with
  | Some j => JunctionTables.update j
  | None => []
  end.

(** Two diffs hold the same operations. *)
Definition sameOperations (d d' : Diff.t) : Prop :=
  columnsCreateOf d' = columnsCreateOf d /\
  columnsDeleteOf d' = columnsDeleteOf d /\
  crossTableOf d' = crossTableOf d /\
  junctionCreateOf d' = junctionCreateOf d /\
  junctionDropOf d' = junctionDropOf d /\
  junctionUpdateOf d' = junctionUpdateOf d.

(** Which of [columns.create] and [columns.delete] are arrays. *)
Definition hasColumnsCreate (d : Diff.t) : bool :=
  match Diff.columns d with
  | Some c => bool_decide (is_Some (Columns.create c))
  | None => false
  end.

Definition hasColumnsDelete (d : Diff.t) : bool :=
  match Diff.columns d with
  | Some c => bool_decide (is_Some (Columns.delete c))
  | None => false
  end.

(** The diff a caller starts from: both column arrays, nothing else. *)
Definition freshDiff : Diff.t :=
  Diff.mk (Some (Columns.mk (Some []) (Some []))) None None.

(** The containers made by the two initialisations at the head of
    [handleRelationTypeChange]. *)
Definition withContainers (d : Diff.t) : Diff.t :=
  Diff.mk (Diff.columns d)
    (Some (crossTableOf d))
    (Some (default JunctionTables.empty (Diff.junctionTables d))).

Definition isTypeError (o : Outcome) : bool :=
  match o with
  | Throw TypeError _ => true
  | _ => false
  end.

(** The relation lists as the planners see them, after name resolution. *)
Definition resolved (knex : Knex) (oldRelations newRelations : list Relation.t)
    (tableName : string) (relations : list Relation.t) : list Relation.t :=
  List.map
    (resolveRelation tableName
       (buildTargetTablesMap knex (targetTableIds oldRelations newRelations)))
    relations.

(** ** An instance of the naming helpers, to run the planners *)

Module ExampleNaming.
Definition getForeignKeyColumnName (propertyName : string) : string :=
  propertyName +:+ "Id".

Definition tableOf (v : JsValue) : string :=
  match v with
  | Str s => s
  | _ => "undefined"
  end.

Definition getJunctionTableName (source property : string) (target : JsValue) : string :=
  source +:+ "_" +:+ property +:+ "_" +:+ tableOf target.

Definition getJunctionColumnNames (source property : string) (target : JsValue)
    : string * string :=
  (source +:+ "Id", tableOf target +:+ "Id").

Definition analyze : Knex -> list Relation.t -> list Relation.t -> string -> Stmt :=
  analyzeRelationChanges getForeignKeyColumnName getJunctionTableName
    getJunctionColumnNames.

(** A relation with only the fields every relation has. *)
Definition relation (id : Z) (propertyName type : string) (targetTable : JsValue)
    : Relation.t :=
  Relation.mk id propertyName type None targetTable Undefined None None None None.

(** A lookup over a fixed table of definitions. *)
Definition knexOf (rows : list TableRow.t) : Knex :=
  fun ids => List.filter (fun row => existsb (Z.eqb (TableRow.id row)) ids) rows.
End ExampleNaming.

(** ** Conditions on the accumulator *)

(** Both on-demand containers are there. *)
Definition initialised (d : Diff.t) : Prop :=
  is_Some (Diff.crossTableOperations d) /\ is_Some (Diff.junctionTables d).

(** Both column arrays are there. *)
Definition columnsReady (d : Diff.t) : Prop :=
  hasColumnsCreate d = true /\ hasColumnsDelete d = true.

(** The presence of [columns] and of its two arrays. *)
Definition columnsShape (d : Diff.t) : option (bool * bool) :=
  match Diff.columns d with
  | Some c =>
      Some (bool_decide (is_Some (Columns.create c)),
            bool_decide (is_Some (Columns.delete c)))
  | None => None
  end.

(** ** Pre- and postconditions of statements *)

(** [hoare P s Q E]: from a diff satisfying [P], the statement [s] either
    completes in a diff satisfying [Q] or throws [e] leaving a diff [d']
    with [E e d']. *)
Definition hoare (P : Diff.t -> Prop) (s : Stmt) (Q : Diff.t -> Prop)
    (E : JsError -> Diff.t -> Prop) : Prop :=
  forall d, P d ->
    match s d with
    | Ok d' => Q d'
    | Throw e d' => E e d'
    end.

(** What the type-change resolver needs of a pair of conditions: [I] holds
    on entry, [J] after the two initialisations, and every mutation the
    resolver makes keeps [J]; [E] is what holds when something is thrown. *)
Record resolverRespects (I J : Diff.t -> Prop) (E : JsError -> Diff.t -> Prop)
    : Prop := {
  respects_containers :
    hoare I (ensureCrossTableOperations ;; ensureJunctionTables) J E;
  respects_in_columnsCreate : forall e, hoare J (pushColumnsCreate e) J E;
  respects_in_columnsDelete : forall e, hoare J (pushColumnsDelete e) J E;
  respects_in_cross : forall e, hoare J (pushCrossTableOperation e) J E;
  respects_in_junctionCreate : forall e, hoare J (pushJunctionCreate e) J E;
  respects_in_junctionDrop : forall e, hoare J (pushJunctionDrop e) J E;
  respects_error : forall m d, J d -> E (Error m) d;
}.

(** What the deletion and creation planners need on top of that. *)
Record plannerRespects (I J : Diff.t -> Prop) (E : JsError -> Diff.t -> Prop)
    : Prop := {
  respects_resolver : resolverRespects I J E;
  respects_columnsCreate : forall e, hoare I (pushColumnsCreate e) I E;
  respects_columnsDelete : forall e, hoare I (pushColumnsDelete e) I E;
  respects_cross :
    forall e, hoare I (ensureCrossTableOperations ;; pushCrossTableOperation e) I E;
  respects_junctionCreate :
    forall e, hoare I (ensureJunctionTables ;; pushJunctionCreate e) I E;
  respects_junctionDrop :
    forall e, hoare I (ensureJunctionTables ;; pushJunctionDrop e) I E;
  respects_leave : forall d, J d -> I d;
}.

(** ** Concrete relations *)

Module Examples.
Import ExampleNaming.

Definition noTables : Knex := knexOf [].
Definition tables : Knex := knexOf [TableRow.mk 7 "Tag"].

Definition author (type : string) : Relation.t := relation 1 "author" type (Str "User").
Definition comments (type : string) : Relation.t :=
  relation 2 "comments" type (Str "Comment").
Definition tags : Relation.t := relation 3 "tags" many_to_many (TableRef 7).

(** A relation as the planners see it when no lookup is needed. *)
Definition seen (rel : Relation.t) : Relation.t := resolveRelation "Post" ∅ rel.

Definition noColumns : Diff.t := Diff.mk None None None.
End Examples.

(** ** Relation objects behind references *)

(** The caller's relations are objects, and so are the copies the analysis
    makes of them: a heap holds the objects, a reference is the index of
    one, an array of relations is a list of references. *)

(** The objects an array points to. *)
Definition readAll (heap : list Relation.t) (refs : list nat) : list Relation.t :=
  omap (fun r => heap !! r) refs.

(** [{ ...rel, ... }]: a new object, behind a new reference. *)
Definition allocate (object : Relation.t) (heap : list Relation.t)
    : nat * list Relation.t :=
  (length heap, heap ++ [object]).

(** [relations.map(rel => ({ ...rel, ... }))]: each object is read and its
    copy, changed by [f], is allocated; the result is the new array.  No
    object that exists is written. *)
Fixpoint mapCopy (f : Relation.t -> Relation.t) (refs : list nat)
    (heap : list Relation.t) : list nat * list Relation.t :=
  match refs with
  | [] => ([], heap)
  | r :: refs' =>
      match heap !! r with
      | Some object =>
          let (copy, heap1) := allocate (f object) heap in
          let (copies, heap2) := mapCopy f refs' heap1 in
          (copy :: copies, heap2)
      | None => mapCopy f refs' heap
      end
  end.

Section OnTheHeap.

Variable getForeignKeyColumnName : string -> string.
Variable getJunctionTableName : string -> string -> JsValue -> string.
Variable getJunctionColumnNames : string -> string -> JsValue -> string * string.

(** [analyzeRelationChanges] with its two arrays given by reference: the
    heap goes in with the diff and comes out with the outcome.  The local
    [oldRelations] and [newRelations] are rebound to the arrays of copies;
    the planners read the copies and write only the diff. *)
Definition analyzeRelationChangesOnHeap (knex : Knex) (oldRefs newRefs : list nat)
    (tableName : string) (heap : list Relation.t) (diff : Diff.t)
    : list Relation.t * Outcome :=
  let targetTableIds := targetTableIds (readAll heap oldRefs) (readAll heap newRefs) in
  let targetTablesMap := buildTargetTablesMap knex targetTableIds in
  let (oldCopies, heap1) :=
    mapCopy (resolveRelation tableName targetTablesMap) oldRefs heap in
  let (newCopies, heap2) :=
    mapCopy (resolveRelation tableName targetTablesMap) newRefs heap1 in
  let oldRelations := readAll heap2 oldCopies in
  let newRelations := readAll heap2 newCopies in
  let oldRelMap := relMap oldRelations in
  let newRelMap := relMap newRelations in
  let deletedRelIds := deletedRelIds oldRelations newRelMap in
  let createdRelIds := createdRelIds newRelations oldRelMap in
  (heap2,
   (handleDeletedRelations getForeignKeyColumnName oldRelations deletedRelIds ;;
    handleCreatedRelations getForeignKeyColumnName getJunctionTableName
      getJunctionColumnNames newRelations createdRelIds tableName ;;
    handleUpdatedRelations getForeignKeyColumnName getJunctionTableName
      getJunctionColumnNames oldRelMap newRelMap tableName) diff).

End OnTheHeap.

(** Every reference of the array points to an object of the heap. *)
Definition live (heap : list Relation.t) (refs : list nat) : Prop :=
  Forall (fun r => r < length heap) refs.

(** ** Vocabulary for the properties of the single planners *)

(** The six operation lists of a diff, side by side: [columns.create],
    [columns.delete], [crossTableOperations], [junctionTables.create],
    [junctionTables.drop], [junctionTables.update]. *)
Definition operationsOf (d : Diff.t)
    : list ColumnDef.t * list ColumnDrop.t * list CrossTableOp.t *
      list JunctionCreate.t * list JunctionDrop.t * list JunctionUpdate :=
  (columnsCreateOf d, columnsDeleteOf d, crossTableOf d,
   junctionCreateOf d, junctionDropOf d, junctionUpdateOf d).

(** The type tag is one of the four the planners test for. *)
Definition knownType (t : string) : bool :=
  String.eqb t many_to_one || String.eqb t one_to_one
  || String.eqb t one_to_many || String.eqb t many_to_many.

(** Every operation list of [d'] starts with the list of [d]. *)
Definition extends (d d' : Diff.t) : Prop :=
  columnsCreateOf d `prefix_of` columnsCreateOf d' /\
  columnsDeleteOf d `prefix_of` columnsDeleteOf d' /\
  crossTableOf d `prefix_of` crossTableOf d' /\
  junctionCreateOf d `prefix_of` junctionCreateOf d' /\
  junctionDropOf d `prefix_of` junctionDropOf d' /\
  junctionUpdateOf d `prefix_of` junctionUpdateOf d'.

(** A one-to-many relation names its inverse side. *)
Definition inverseNamed (rel : Relation.t) : Prop :=
  Relation.type rel = one_to_many ->
  present (Relation.inversePropertyName rel) = true.

(** The relation is found under its own id, first, in the list. *)
Definition listed (relations : list Relation.t) (rel : Relation.t) : Prop :=
  findRelation relations (Relation.id rel) = Some rel.

(** More concrete relations. *)
Module MoreExamples.
Import ExampleNaming.

(** [rel] with an [inversePropertyName]. *)
Definition withInverse (inverse : string) (rel : Relation.t) : Relation.t :=
  Relation.mk (Relation.id rel) (Relation.propertyName rel) (Relation.type rel)
    (Relation.sourceTableName rel) (Relation.targetTable rel)
    (Relation.targetTableName rel) (Some inverse) (Relation.foreignKeyColumn rel)
    (Relation.isNullable rel) (Relation.junctionTableName rel).

(** [rel] with a [junctionTableName]. *)
Definition withJunction (name : string) (rel : Relation.t) : Relation.t :=
  Relation.mk (Relation.id rel) (Relation.propertyName rel) (Relation.type rel)
    (Relation.sourceTableName rel) (Relation.targetTable rel)
    (Relation.targetTableName rel) (Relation.inversePropertyName rel)
    (Relation.foreignKeyColumn rel) (Relation.isNullable rel) (Some name).

Definition posts (type : string) : Relation.t :=
  withInverse "author" (Examples.seen (relation 4 "posts" type (Str "Post"))).

Definition labels (type : string) : Relation.t :=
  withJunction "post_labels" (Examples.seen (relation 5 "labels" type (Str "Label"))).

Definition author (type : string) : Relation.t := Examples.seen (Examples.author type).

Definition comments (type : string) : Relation.t :=
  Examples.seen (Examples.comments type).
End MoreExamples.

(** * Properties *)

(** ** Sequencing and loops *)

Lemma seq_skip_l (s : Stmt) (d : Diff.t) : (skip ;; s) d = s d.
Proof. reflexivity. Qed.

Lemma seq_skip_r (s : Stmt) (d : Diff.t) : (s ;; skip) d = s d.
Proof. unfold seq, skip. destruct (s d); reflexivity. Qed.

Lemma seq_assoc (s1 s2 s3 : Stmt) (d : Diff.t) :
  ((s1 ;; s2) ;; s3) d = (s1 ;; s2 ;; s3) d.
Proof. unfold seq. destruct (s1 d); reflexivity. Qed.

Lemma seq_ok (s1 s2 : Stmt) (d d1 : Diff.t) :
  s1 d = Ok d1 -> (s1 ;; s2) d = s2 d1.
Proof. intros H. unfold seq. rewrite H. reflexivity. Qed.

Lemma forOf_app {A : Type} (xs ys : list A) (body : A -> Stmt) (d : Diff.t) :
  forOf (xs ++ ys) body d = (forOf xs body ;; forOf ys body) d.
Proof.
  revert d. induction xs as [|x xs IH]; intros d.
  - reflexivity.
  - cbn [app forOf]. unfold seq at 1 2 3.
    destruct (body x d) as [d1|e d1]; [|reflexivity].
    rewrite IH. reflexivity.
Qed.

Lemma forOf_skip_one {A : Type} (xs ys : list A) (x : A) (body : A -> Stmt) :
  (forall d, body x d = Ok d) ->
  forall d, forOf (xs ++ x :: ys) body d = forOf (xs ++ ys) body d.
Proof.
  intros Hx d. rewrite !forOf_app. unfold seq.
  destruct (forOf xs body d) as [d1|e d1]; [|reflexivity].
  cbn [forOf]. unfold seq. rewrite Hx. reflexivity.
Qed.

(** ** Rules for pre- and postconditions *)

Lemma hoare_seq (P R Q : Diff.t -> Prop) (E : JsError -> Diff.t -> Prop)
    (s1 s2 : Stmt) :
  hoare P s1 R E -> hoare R s2 Q E -> hoare P (s1 ;; s2) Q E.
Proof.
  intros H1 H2 d HP. unfold seq. specialize (H1 d HP).
  destruct (s1 d) as [d1|e d1]; [apply (H2 d1 H1) | exact H1].
Qed.

Lemma hoare_skip (P : Diff.t -> Prop) (E : JsError -> Diff.t -> Prop) :
  hoare P skip P E.
Proof. intros d HP. exact HP. Qed.

Lemma hoare_throw (P Q : Diff.t -> Prop) (E : JsError -> Diff.t -> Prop)
    (e : JsError) :
  (forall d, P d -> E e d) -> hoare P (throw e) Q E.
Proof. intros H d HP. apply H, HP. Qed.

Lemma hoare_weaken (P P' Q Q' : Diff.t -> Prop) (E : JsError -> Diff.t -> Prop)
    (s : Stmt) :
  (forall d, P' d -> P d) -> (forall d, Q d -> Q' d) ->
  hoare P s Q E -> hoare P' s Q' E.
Proof.
  intros HP HQ H d Hd. specialize (H d (HP d Hd)).
  destruct (s d); [apply HQ, H | exact H].
Qed.

Lemma hoare_forOf {A : Type} (I : Diff.t -> Prop) (E : JsError -> Diff.t -> Prop)
    (xs : list A) (body : A -> Stmt) :
  (forall x, hoare I (body x) I E) -> hoare I (forOf xs body) I E.
Proof.
  intros Hbody. induction xs as [|x xs IH].
  - apply hoare_skip.
  - cbn [forOf]. eapply hoare_seq; [apply Hbody | apply IH].
Qed.

(** ** The containers *)

Lemma ensure_containers (d : Diff.t) :
  (ensureCrossTableOperations ;; ensureJunctionTables) d = Ok (withContainers d).
Proof. destruct d as [c [x|] [j|]]; reflexivity. Qed.

Lemma withContainers_sameOperations (d : Diff.t) :
  sameOperations d (withContainers d).
Proof. destruct d as [c [x|] [j|]]; repeat split. Qed.

(** *** Effect of each mutation *)

Lemma pushColumnsDelete_ok (e : ColumnDrop.t) (d : Diff.t) :
  hasColumnsDelete d = true ->
  exists d', pushColumnsDelete e d = Ok d' /\
    columnsDeleteOf d' = columnsDeleteOf d ++ [e] /\
    columnsCreateOf d' = columnsCreateOf d /\
    hasColumnsCreate d' = hasColumnsCreate d /\
    hasColumnsDelete d' = true /\
    Diff.crossTableOperations d' = Diff.crossTableOperations d /\
    Diff.junctionTables d' = Diff.junctionTables d.
Proof.
  destruct d as [[[cc cd]|] x j]; cbn; [|discriminate].
  destruct cd as [cd|]; cbn; [|intros H; discriminate].
  intros _. eexists. split; [reflexivity|]. cbn. repeat split.
Qed.

Lemma pushColumnsCreate_ok (e : ColumnDef.t) (d : Diff.t) :
  hasColumnsCreate d = true ->
  exists d', pushColumnsCreate e d = Ok d' /\
    columnsCreateOf d' = columnsCreateOf d ++ [e] /\
    columnsDeleteOf d' = columnsDeleteOf d /\
    hasColumnsCreate d' = true /\
    hasColumnsDelete d' = hasColumnsDelete d /\
    Diff.crossTableOperations d' = Diff.crossTableOperations d /\
    Diff.junctionTables d' = Diff.junctionTables d.
Proof.
  destruct d as [[[cc cd]|] x j]; cbn; [|discriminate].
  destruct cc as [cc|]; cbn; [|intros H; discriminate].
  intros _. eexists. split; [reflexivity|]. cbn. repeat split.
Qed.

Lemma pushColumnsDelete_missing (e : ColumnDrop.t) (d : Diff.t) :
  hasColumnsDelete d = false -> pushColumnsDelete e d = Throw TypeError d.
Proof.
  destruct d as [[[cc [cd|]]|] x j]; cbn; intros H; try reflexivity.
  discriminate.
Qed.

Lemma pushColumnsCreate_missing (e : ColumnDef.t) (d : Diff.t) :
  hasColumnsCreate d = false -> pushColumnsCreate e d = Throw TypeError d.
Proof.
  destruct d as [[[[cc|] cd]|] x j]; cbn; intros H; try reflexivity.
  discriminate.
Qed.

Lemma ensure_pushCrossTableOperation (e : CrossTableOp.t) (d : Diff.t) :
  (ensureCrossTableOperations ;; pushCrossTableOperation e) d =
  Ok (Diff.mk (Diff.columns d) (Some (crossTableOf d ++ [e])) (Diff.junctionTables d)).
Proof. destruct d as [c [x|] j]; reflexivity. Qed.

Lemma ensure_pushJunctionCreate (e : JunctionCreate.t) (d : Diff.t) :
  (ensureJunctionTables ;; pushJunctionCreate e) d =
  Ok (Diff.mk (Diff.columns d) (Diff.crossTableOperations d)
        (Some (JunctionTables.mk (junctionCreateOf d ++ [e]) (junctionDropOf d)
                 (junctionUpdateOf d)))).
Proof. destruct d as [c x [j|]]; reflexivity. Qed.

Lemma ensure_pushJunctionDrop (e : JunctionDrop.t) (d : Diff.t) :
  (ensureJunctionTables ;; pushJunctionDrop e) d =
  Ok (Diff.mk (Diff.columns d) (Diff.crossTableOperations d)
        (Some (JunctionTables.mk (junctionCreateOf d) (junctionDropOf d ++ [e])
                 (junctionUpdateOf d)))).
Proof. destruct d as [c x [j|]]; reflexivity. Qed.

(** ** Invariants carried through the planners *)

Section PlannerInvariants.

Variable getForeignKeyColumnName : string -> string.
Variable getJunctionTableName : string -> string -> JsValue -> string.
Variable getJunctionColumnNames : string -> string -> JsValue -> string * string.

Variables I J : Diff.t -> Prop.
Variable E : JsError -> Diff.t -> Prop.

Lemma handleRelationTypeChange_respects (oldRel newRel : Relation.t)
    (tableName : string) :
  resolverRespects I J E ->
  hoare I
    (handleRelationTypeChange getForeignKeyColumnName getJunctionTableName
       getJunctionColumnNames oldRel newRel tableName)
    J E.
Proof.
  intros R. unfold handleRelationTypeChange.
  assert (Hhead : forall rest, hoare J rest J E ->
            hoare I (ensureCrossTableOperations ;; ensureJunctionTables ;; rest) J E).
  { intros rest Hrest d Hd. rewrite <- seq_assoc.
    pose proof (respects_containers _ _ _ R d Hd) as H0.
    unfold seq at 1. destruct ((ensureCrossTableOperations;; ensureJunctionTables) d);
      [apply Hrest, H0 | exact H0]. }
  apply Hhead. cbv zeta.
  repeat match goal with
         | |- hoare _ (if ?c then _ else _) _ _ => destruct c
         | |- hoare _ (match ?o with Some _ => _ | None => _ end) _ _ => destruct o
         | |- hoare _ (_ ;; _) _ _ => eapply hoare_seq
         | |- hoare _ skip _ _ => apply hoare_skip
         | |- hoare _ (throw (Error _)) _ _ => apply hoare_throw, (respects_error _ _ _ R)
         | |- hoare _ (pushColumnsCreate _) _ _ => apply (respects_in_columnsCreate _ _ _ R)
         | |- hoare _ (pushColumnsDelete _) _ _ => apply (respects_in_columnsDelete _ _ _ R)
         | |- hoare _ (pushCrossTableOperation _) _ _ => apply (respects_in_cross _ _ _ R)
         | |- hoare _ (pushJunctionCreate _) _ _ => apply (respects_in_junctionCreate _ _ _ R)
         | |- hoare _ (pushJunctionDrop _) _ _ => apply (respects_in_junctionDrop _ _ _ R)
         end.
Qed.

Lemma deletedRelation_respects (oldRelations : list Relation.t) (relId : Z) :
  plannerRespects I J E ->
  hoare I (deletedRelation getForeignKeyColumnName oldRelations relId) I E.
Proof.
  intros R. unfold deletedRelation.
  repeat match goal with
         | |- hoare _ (if ?c then _ else _) _ _ => destruct c
         | |- hoare _ (match ?o with Some _ => _ | None => _ end) _ _ => destruct o
         | |- hoare _ skip _ _ => apply hoare_skip
         | |- hoare _ (pushColumnsDelete _) _ _ => apply (respects_columnsDelete _ _ _ R)
         | |- hoare _ (_ ;; pushCrossTableOperation _) _ _ => apply (respects_cross _ _ _ R)
         | |- hoare _ (_ ;; pushJunctionDrop _) _ _ => apply (respects_junctionDrop _ _ _ R)
         end.
Qed.

Lemma createdRelation_respects (newRelations : list Relation.t) (tableName : string)
    (relId : Z) :
  plannerRespects I J E ->
  hoare I
    (createdRelation getForeignKeyColumnName getJunctionTableName
       getJunctionColumnNames newRelations tableName relId)
    I E.
Proof.
  intros R. unfold createdRelation.
  repeat match goal with
         | |- hoare _ (if ?c then _ else _) _ _ => destruct c
         | |- hoare _ (match ?o with Some _ => _ | None => _ end) _ _ => destruct o
         | |- hoare _ skip _ _ => apply hoare_skip
         | |- hoare _ (pushColumnsCreate _) _ _ => apply (respects_columnsCreate _ _ _ R)
         | |- hoare _ (_ ;; pushCrossTableOperation _) _ _ => apply (respects_cross _ _ _ R)
         | |- hoare _ (_ ;; pushJunctionCreate _) _ _ => apply (respects_junctionCreate _ _ _ R)
         end.
Qed.

Lemma updatedRelation_respects (oldRelMap : JsMap.t Relation.t) (tableName : string)
    (entry : Z * Relation.t) :
  plannerRespects I J E ->
  hoare I
    (updatedRelation getForeignKeyColumnName getJunctionTableName
       getJunctionColumnNames oldRelMap tableName entry)
    I E.
Proof.
  intros R. unfold updatedRelation.
  repeat match goal with
         | |- hoare _ (if ?c then _ else _) _ _ => destruct c
         | |- hoare _ (match ?o with Some _ => _ | None => _ end) _ _ => destruct o
         | |- hoare _ skip _ _ => apply hoare_skip
         end.
  eapply hoare_weaken;
    [ | | apply handleRelationTypeChange_respects, (respects_resolver _ _ _ R)].
  - auto.
  - apply (respects_leave _ _ _ R).
Qed.

Lemma analyzeRelationChanges_respects (knex : Knex)
    (oldRelations newRelations : list Relation.t) (tableName : string) :
  plannerRespects I J E ->
  hoare I
    (analyzeRelationChanges getForeignKeyColumnName getJunctionTableName
       getJunctionColumnNames knex oldRelations newRelations tableName)
    I E.
Proof.
  intros R. unfold analyzeRelationChanges. cbv zeta.
  eapply hoare_seq; [|eapply hoare_seq].
  - apply hoare_forOf. intros x. apply deletedRelation_respects, R.
  - apply hoare_forOf. intros x. apply createdRelation_respects, R.
  - apply hoare_forOf. intros x. apply updatedRelation_respects, R.
Qed.

End PlannerInvariants.

(** *** Three invariants *)

Ltac crush_hoare :=
  unfold hoare, initialised, columnsReady, columnsShape, hasColumnsCreate,
    hasColumnsDelete;
  intros;
  repeat match goal with
         | d : Diff.t |- _ => destruct d as [[[[?|] [?|]]|] [?|] [?|]]
         end;
  cbn in *;
  repeat match goal with
         | H : _ /\ _ |- _ => destruct H
         | H : is_Some None |- _ => destruct H as [? H]; discriminate H
         | H : false = true |- _ => discriminate H
         end;
  try discriminate; try done; repeat split; eauto.

Lemma initialised_resolverRespects :
  resolverRespects (fun _ => True) initialised (fun _ d => initialised d).
Proof. split; crush_hoare. Qed.

Lemma columnsShape_plannerRespects (sh : option (bool * bool)) :
  plannerRespects (fun d => columnsShape d = sh) (fun d => columnsShape d = sh)
    (fun _ d => columnsShape d = sh).
Proof. split; [split|..]; crush_hoare. Qed.

Lemma columnsReady_plannerRespects :
  plannerRespects columnsReady (fun d => columnsReady d /\ initialised d)
    (fun e _ => e <> TypeError).
Proof. split; [split|..]; crush_hoare. Qed.

(** ** The type-change resolver *)

Section Resolver.

Variable getForeignKeyColumnName : string -> string.
Variable getJunctionTableName : string -> string -> JsValue -> string.
Variable getJunctionColumnNames : string -> string -> JsValue -> string * string.

Local Abbreviation typeChange :=
  (handleRelationTypeChange getForeignKeyColumnName getJunctionTableName
     getJunctionColumnNames).
Local Abbreviation columnDrop := (ownColumnDrop getForeignKeyColumnName).
Local Abbreviation junction :=
  (junctionFor getJunctionTableName getJunctionColumnNames).

(** The resolver runs its branch on the diff with both containers made. *)
Lemma typeChange_head (rest : Stmt) (d : Diff.t) :
  (ensureCrossTableOperations ;; ensureJunctionTables ;; rest) d =
  rest (withContainers d).
Proof. rewrite <- seq_assoc. apply seq_ok, ensure_containers. Qed.

Lemma typeChange_own_to_junction (oldRel newRel : Relation.t) (tableName : string)
    (d : Diff.t) :
  Relation.type oldRel = many_to_one \/ Relation.type oldRel = one_to_one ->
  Relation.type newRel = many_to_many ->
  typeChange oldRel newRel tableName d =
  (pushColumnsDelete (columnDrop oldRel) ;;
   pushJunctionCreate (junction tableName newRel)) (withContainers d).
Proof.
  intros Hold Hnew. unfold handleRelationTypeChange.
  rewrite typeChange_head. destruct Hold as [Hold|Hold];
    rewrite Hold, Hnew; reflexivity.
Qed.

Lemma typeChange_constraint_only (oldRel newRel : Relation.t) (tableName : string)
    (d : Diff.t) :
  (Relation.type oldRel = many_to_one /\ Relation.type newRel = one_to_one) \/
  (Relation.type oldRel = one_to_one /\ Relation.type newRel = many_to_one) ->
  typeChange oldRel newRel tableName d = Ok (withContainers d).
Proof.
  intros H. unfold handleRelationTypeChange.
  rewrite typeChange_head. destruct H as [[Hold Hnew]|[Hold Hnew]];
    rewrite Hold, Hnew; reflexivity.
Qed.

Lemma inverseOf_missing (rel : Relation.t) :
  present (Relation.inversePropertyName rel) = false -> inverseOf rel = None.
Proof.
  unfold inverseOf, present. destruct (Relation.inversePropertyName rel) as [s|];
    [|reflexivity].
  intros ->. reflexivity.
Qed.

Lemma typeChange_inverse_to_junction_missing (oldRel newRel : Relation.t)
    (tableName : string) (d : Diff.t) :
  Relation.type oldRel = one_to_many ->
  Relation.type newRel = many_to_many ->
  present (Relation.inversePropertyName oldRel) = false ->
  typeChange oldRel newRel tableName d =
  Throw (Error (missingInverseMessage (Relation.propertyName oldRel)))
    (withContainers d).
Proof.
  intros Hold Hnew Hinv. unfold handleRelationTypeChange.
  rewrite typeChange_head, Hold, Hnew. cbn.
  rewrite (inverseOf_missing _ Hinv). reflexivity.
Qed.

(** C3. A type change from many-to-one to many-to-many runs, on the diff
    with its containers made, the push of one [columns.delete] entry for
    the old foreign key (the [foreignKeyColumn] override, else the name
    derived from the old [propertyName]) followed by the push of one
    [junctionTables.create] entry named from (table name, new
    [propertyName], new [targetTableName]).  When [columns.delete] is an
    array, both pushes succeed: each of the two lists grows by exactly
    that entry and the four other lists are as before. *)
Theorem C3_many_to_one_to_many_to_many (oldRel newRel : Relation.t)
    (tableName : string) (d : Diff.t) :
  Relation.type oldRel = many_to_one ->
  Relation.type newRel = many_to_many ->
  let foreignKey :=
    ColumnDrop.mk
      (orElse (Relation.foreignKeyColumn oldRel)
         (getForeignKeyColumnName (Relation.propertyName oldRel)))
      true in
  let names :=
    getJunctionColumnNames tableName (Relation.propertyName newRel)
      (Relation.targetTableName newRel) in
  let created :=
    JunctionCreate.mk
      (getJunctionTableName tableName (Relation.propertyName newRel)
         (Relation.targetTableName newRel))
      tableName (Relation.targetTableName newRel) (fst names) (snd names) in
  typeChange oldRel newRel tableName d =
    (pushColumnsDelete foreignKey ;; pushJunctionCreate created) (withContainers d) /\
  (hasColumnsDelete d = true ->
   exists d',
     typeChange oldRel newRel tableName d = Ok d' /\
     columnsDeleteOf d' = columnsDeleteOf d ++ [foreignKey] /\
     junctionCreateOf d' = junctionCreateOf d ++ [created] /\
     columnsCreateOf d' = columnsCreateOf d /\
     crossTableOf d' = crossTableOf d /\
     junctionDropOf d' = junctionDropOf d /\
     junctionUpdateOf d' = junctionUpdateOf d).
Proof.
  intros Hold Hnew foreignKey names created.
  pose proof (typeChange_own_to_junction oldRel newRel tableName d
                (or_introl Hold) Hnew) as Hrun.
  split; [exact Hrun|].
  intros Hdel. rewrite Hrun.
  destruct d as [[[cc [cd|]]|] x j]; try discriminate Hdel.
  eexists. split; [reflexivity|].
  destruct x, j; cbn; repeat split.
Qed.

(** C6. A type change between many-to-one and one-to-one, in either
    direction, completes and appends nothing: the diff it leaves is the
    one it was given with the two containers made, and each of
    [columns.create], [columns.delete], [crossTableOperations],
    [junctionTables.create], [junctionTables.drop] and
    [junctionTables.update] holds the entries it held. *)
Theorem C6_many_to_one_one_to_one_emits_nothing (oldRel newRel : Relation.t)
    (tableName : string) (d : Diff.t) :
  (Relation.type oldRel = many_to_one /\ Relation.type newRel = one_to_one) \/
  (Relation.type oldRel = one_to_one /\ Relation.type newRel = many_to_one) ->
  exists d',
    typeChange oldRel newRel tableName d = Ok d' /\
    columnsCreateOf d' = columnsCreateOf d /\
    columnsDeleteOf d' = columnsDeleteOf d /\
    crossTableOf d' = crossTableOf d /\
    junctionCreateOf d' = junctionCreateOf d /\
    junctionDropOf d' = junctionDropOf d /\
    junctionUpdateOf d' = junctionUpdateOf d.
Proof.
  intros H. exists (withContainers d).
  split; [apply typeChange_constraint_only, H|].
  apply withContainers_sameOperations.
Qed.

(** C9. Whatever the two relations and the diff, and however the resolver
    ends (normally, also when it appends nothing, or by throwing, the
    error for a missing [inversePropertyName] included), the diff it
    leaves has [crossTableOperations] set to a list and [junctionTables]
    set to its three lists. *)
Theorem C9_resolver_initialises_containers (oldRel newRel : Relation.t)
    (tableName : string) (d : Diff.t) :
  match typeChange oldRel newRel tableName d with
  | Ok d' =>
      is_Some (Diff.crossTableOperations d') /\ is_Some (Diff.junctionTables d')
  | Throw e d' =>
      is_Some (Diff.crossTableOperations d') /\ is_Some (Diff.junctionTables d')
  end.
Proof.
  exact (handleRelationTypeChange_respects getForeignKeyColumnName
           getJunctionTableName getJunctionColumnNames _ _ _ oldRel newRel
           tableName initialised_resolverRespects d Logic.I).
Qed.

End Resolver.

(** ** The update planner *)

Lemma changes_of_type (oldRel newRel : Relation.t) :
  String.eqb (Relation.type oldRel) (Relation.type newRel) = false ->
  Nat.ltb 0 (length (changes oldRel newRel)) = true.
Proof.
  intros H. unfold changes. rewrite H.
  destruct (String.eqb (Relation.propertyName oldRel) (Relation.propertyName newRel));
    repeat case_bool_decide; reflexivity.
Qed.

Section UpdatePlanner.

Variable getForeignKeyColumnName : string -> string.
Variable getJunctionTableName : string -> string -> JsValue -> string.
Variable getJunctionColumnNames : string -> string -> JsValue -> string * string.

Local Abbreviation typeChange :=
  (handleRelationTypeChange getForeignKeyColumnName getJunctionTableName
     getJunctionColumnNames).
Local Abbreviation updated :=
  (updatedRelation getForeignKeyColumnName getJunctionTableName
     getJunctionColumnNames).

(** The [changes] list does not steer the planner: only the comparison of
    the two types does. *)
Lemma updatedRelation_by_type (oldRelMap : JsMap.t Relation.t) (tableName : string)
    (entry : Z * Relation.t) :
  updated oldRelMap tableName entry =
  match JsMap.get (fst entry) oldRelMap with
  | None => skip
  | Some oldRel =>
      if String.eqb (Relation.type oldRel) (Relation.type (snd entry))
      then skip
      else typeChange oldRel (snd entry) tableName
  end.
Proof.
  unfold updatedRelation. destruct (JsMap.get _ _) as [oldRel|]; [|reflexivity].
  destruct (String.eqb (Relation.type oldRel) (Relation.type (snd entry))) eqn:Ht.
  - cbn [negb].
    match goal with |- (if ?c then _ else _) = _ => destruct c end; reflexivity.
  - rewrite (changes_of_type _ _ Ht). reflexivity.
Qed.

(** The update planner is the loop over the matched pairs. *)
Lemma handleUpdatedRelations_matched (oldRelMap newRelMap : JsMap.t Relation.t)
    (tableName : string) (d : Diff.t) :
  handleUpdatedRelations getForeignKeyColumnName getJunctionTableName
    getJunctionColumnNames oldRelMap newRelMap tableName d =
  forOf (matchedPairs oldRelMap newRelMap)
    (fun pair => updated oldRelMap tableName (fst pair, snd (snd pair))) d.
Proof.
  unfold handleUpdatedRelations, matchedPairs. revert d.
  induction newRelMap as [|[k v] m IH]; intros d; [reflexivity|].
  cbn [forOf omap list_omap fst snd].
  destruct (JsMap.get k oldRelMap) as [oldRel|] eqn:Hget.
  - cbn [forOf fst snd]. unfold seq.
    destruct (updated oldRelMap tableName (k, v) d); [apply IH | reflexivity].
  - unfold seq at 1. rewrite updatedRelation_by_type. cbn [fst]. rewrite Hget.
    apply IH.
Qed.

End UpdatePlanner.

(** ** The creation planner and the whole analysis *)

Lemma findRelation_singleton (rel : Relation.t) :
  findRelation [rel] (Relation.id rel) = Some rel.
Proof. unfold findRelation. cbn. rewrite Z.eqb_refl. reflexivity. Qed.

Lemma relMap_singleton (rel : Relation.t) : relMap [rel] = [(Relation.id rel, rel)].
Proof. reflexivity. Qed.

Section Analysis.

Variable getForeignKeyColumnName : string -> string.
Variable getJunctionTableName : string -> string -> JsValue -> string.
Variable getJunctionColumnNames : string -> string -> JsValue -> string * string.

Local Abbreviation typeChange :=
  (handleRelationTypeChange getForeignKeyColumnName getJunctionTableName
     getJunctionColumnNames).
Local Abbreviation deleted := (deletedRelation getForeignKeyColumnName).
Local Abbreviation created :=
  (createdRelation getForeignKeyColumnName getJunctionTableName
     getJunctionColumnNames).
Local Abbreviation handleDeleted := (handleDeletedRelations getForeignKeyColumnName).
Local Abbreviation handleCreated :=
  (handleCreatedRelations getForeignKeyColumnName getJunctionTableName
     getJunctionColumnNames).
Local Abbreviation handleUpdated :=
  (handleUpdatedRelations getForeignKeyColumnName getJunctionTableName
     getJunctionColumnNames).
Local Abbreviation analyze :=
  (analyzeRelationChanges getForeignKeyColumnName getJunctionTableName
     getJunctionColumnNames).

Lemma created_many_to_many (newRelations : list Relation.t) (tableName : string)
    (relId : Z) (rel : Relation.t) (d : Diff.t) :
  findRelation newRelations relId = Some rel ->
  Relation.type rel = many_to_many ->
  created newRelations tableName relId d =
  Ok (Diff.mk (Diff.columns d) (Diff.crossTableOperations d)
        (Some (JunctionTables.mk
                 (junctionCreateOf d ++
                  [junctionFor getJunctionTableName getJunctionColumnNames
                     tableName rel])
                 (junctionDropOf d) (junctionUpdateOf d)))).
Proof.
  intros Hfind Htype. unfold createdRelation. rewrite Hfind, Htype.
  cbn [String.eqb]. exact (ensure_pushJunctionCreate _ d).
Qed.

(** C4. A created one-to-many relation without [inversePropertyName] is
    skipped by the creation planner: its turn of the loop completes and
    leaves the diff exactly as it was, and the planner then goes on as if
    the relation were not in the list of created ids. *)
Theorem C4_created_one_to_many_without_inverse (newRelations : list Relation.t)
    (tableName : string) (relId : Z) (rel : Relation.t) :
  findRelation newRelations relId = Some rel ->
  Relation.type rel = one_to_many ->
  present (Relation.inversePropertyName rel) = false ->
  (forall d, created newRelations tableName relId d = Ok d) /\
  (forall before after d,
     handleCreated newRelations (before ++ relId :: after) tableName d =
     handleCreated newRelations (before ++ after) tableName d).
Proof.
  intros Hfind Htype Hinv.
  assert (Hskip : forall d, created newRelations tableName relId d = Ok d).
  { intros d. unfold createdRelation. rewrite Hfind, Htype.
    cbn [String.eqb]. rewrite (inverseOf_missing _ Hinv). reflexivity. }
  split; [exact Hskip|].
  intros before after d. unfold handleCreatedRelations.
  apply forOf_skip_one, Hskip.
Qed.

(** C5. On table "Post", a created many-to-many relation named "tags"
    whose target is "Tag" makes the creation planner append exactly one
    entry, to [junctionTables.create]: [sourceTable] "Post",
    [targetTable] "Tag", [tableName] and the two column names as the
    naming helpers give them for ("Post", "tags", "Tag"); the five other
    lists are as before.  So does the whole analysis when that relation is
    the only one. *)
Theorem C5_created_many_to_many_post_tags (d : Diff.t) :
  let names := getJunctionColumnNames "Post" "tags" (Str "Tag") in
  let entry :=
    JunctionCreate.mk (getJunctionTableName "Post" "tags" (Str "Tag"))
      "Post" (Str "Tag") (fst names) (snd names) in
  let appended (d' : Diff.t) :=
    junctionCreateOf d' = junctionCreateOf d ++ [entry] /\
    columnsCreateOf d' = columnsCreateOf d /\
    columnsDeleteOf d' = columnsDeleteOf d /\
    crossTableOf d' = crossTableOf d /\
    junctionDropOf d' = junctionDropOf d /\
    junctionUpdateOf d' = junctionUpdateOf d in
  (forall newRelations relId rel,
     findRelation newRelations relId = Some rel ->
     Relation.type rel = many_to_many ->
     Relation.propertyName rel = "tags" ->
     Relation.targetTableName rel = Str "Tag" ->
     exists d', created newRelations "Post" relId d = Ok d' /\ appended d') /\
  (forall knex rel,
     Relation.type rel = many_to_many ->
     Relation.propertyName rel = "tags" ->
     Relation.targetTableName
       (resolveRelation "Post" (buildTargetTablesMap knex (targetTableIds [] [rel]))
          rel) = Str "Tag" ->
     exists d', analyze knex [] [rel] "Post" d = Ok d' /\ appended d').
Proof.
  intros names entry appended.
  assert (Hbody : forall newRelations relId rel,
            findRelation newRelations relId = Some rel ->
            Relation.type rel = many_to_many ->
            Relation.propertyName rel = "tags" ->
            Relation.targetTableName rel = Str "Tag" ->
            exists d', created newRelations "Post" relId d = Ok d' /\ appended d').
  { intros newRelations relId rel Hfind Htype Hname Htarget.
    eexists. split; [apply (created_many_to_many _ _ _ _ _ Hfind Htype)|].
    unfold appended, junctionFor, entry, names. rewrite Hname, Htarget.
    destruct d as [[[cc cd]|] x j]; repeat split. }
  split; [exact Hbody|].
  intros knex rel Htype Hname Htarget.
  set (r := resolveRelation "Post" (buildTargetTablesMap knex (targetTableIds [] [rel]))
              rel) in *.
  destruct (Hbody [r] (Relation.id r) r (findRelation_singleton r) Htype Hname Htarget)
    as (d' & Hrun & Happ).
  exists d'. split; [|exact Happ].
  unfold analyzeRelationChanges. cbv zeta. cbn [List.map]. fold r.
  rewrite relMap_singleton.
  unfold deletedRelIds, createdRelIds, handleDeletedRelations,
    handleCreatedRelations, handleUpdatedRelations.
  cbn [List.filter List.map relMap JsMap.ofEntries fold_left JsMap.has JsMap.get
         negb forOf].
  unfold seq, skip. rewrite Hrun, updatedRelation_by_type. reflexivity.
Qed.

(** C1. Take a matched pair changing from one-to-many to many-to-many
    whose old relation has no [inversePropertyName].  The analysis then
    rejects.  If everything the planners do before that pair (the
    deletions, the creations, the updates of the pairs that come first)
    completes with diff [d1], the error is the one for that relation and
    the diff it leaves is [d1] with its containers made: the same
    operations as [d1], so nothing was appended for the pair and what was
    appended before stays. *)
Theorem C1_one_to_many_to_many_to_many_without_inverse
    (knex : Knex) (oldRelations newRelations : list Relation.t)
    (tableName : string) (relId : Z) (oldRel newRel : Relation.t)
    (before after : JsMap.t Relation.t) (d : Diff.t) :
  let olds := resolved knex oldRelations newRelations tableName oldRelations in
  let news := resolved knex oldRelations newRelations tableName newRelations in
  relMap news = before ++ (relId, newRel) :: after ->
  JsMap.get relId (relMap olds) = Some oldRel ->
  Relation.type oldRel = one_to_many ->
  Relation.type newRel = many_to_many ->
  present (Relation.inversePropertyName oldRel) = false ->
  exists e d',
    analyze knex oldRelations newRelations tableName d = Throw e d' /\
    forall d1,
      (handleDeleted olds (deletedRelIds olds (relMap news)) ;;
       handleCreated news (createdRelIds news (relMap olds)) tableName ;;
       handleUpdated (relMap olds) before tableName) d = Ok d1 ->
      e = Error (missingInverseMessage (Relation.propertyName oldRel)) /\
      d' = withContainers d1 /\
      sameOperations d1 d'.
Proof.
  intros olds news Hsplit Hget Hold Hnew Hinv.
  change (analyze knex oldRelations newRelations tableName d)
    with ((handleDeleted olds (deletedRelIds olds (relMap news)) ;;
           handleCreated news (createdRelIds news (relMap olds)) tableName ;;
           handleUpdated (relMap olds) (relMap news) tableName) d).
  assert (Hu : forall d0,
             handleUpdated (relMap olds) (relMap news) tableName d0 =
             (handleUpdated (relMap olds) before tableName ;;
              typeChange oldRel newRel tableName ;;
              handleUpdated (relMap olds) after tableName) d0).
  { intros d0. unfold handleUpdatedRelations. rewrite Hsplit, forOf_app.
    cbn [forOf]. rewrite updatedRelation_by_type. cbn [fst snd].
    rewrite Hget, Hold, Hnew. reflexivity. }
  unfold seq.
  destruct (handleDeleted olds (deletedRelIds olds (relMap news)) d) as [d1|e1 d1];
    [|exists e1, d1; split; [reflexivity | intros ? [=]]].
  destruct (handleCreated news (createdRelIds news (relMap olds)) tableName d1)
    as [d2|e2 d2];
    [|exists e2, d2; split; [reflexivity | intros ? [=]]].
  rewrite Hu. unfold seq.
  destruct (handleUpdated (relMap olds) before tableName d2) as [d3|e3 d3];
    [|exists e3, d3; split; [reflexivity | intros ? [=]]].
  rewrite (typeChange_inverse_to_junction_missing _ _ _ _ _ _ _ Hold Hnew Hinv).
  eexists _, _. split; [reflexivity|].
  intros d0 [= <-]. split; [reflexivity|]. split; [reflexivity|].
  apply withContainers_sameOperations.
Qed.

(** The lookup matters only through the rows it returns for the
    identifiers asked for. *)
Lemma analyzeRelationChanges_same_rows (knex1 knex2 : Knex)
    (oldRelations newRelations : list Relation.t) (tableName : string)
    (d : Diff.t) :
  knex1 (targetTableIds oldRelations newRelations) =
  knex2 (targetTableIds oldRelations newRelations) ->
  analyze knex1 oldRelations newRelations tableName d =
  analyze knex2 oldRelations newRelations tableName d.
Proof.
  intros H. unfold analyzeRelationChanges, buildTargetTablesMap.
  rewrite H. reflexivity.
Qed.

(** C10. The analysis never makes [columns], [columns.create] or
    [columns.delete]: which of them are there is the same after as
    before.  A push on one that is missing is a [TypeError]: so ends the
    deletion of a many-to-one or one-to-one relation without
    [columns.delete], and the creation of one without [columns.create].
    When both arrays are there the analysis raises no [TypeError],
    whether or not the caller supplied [crossTableOperations] and
    [junctionTables]. *)
Theorem C10_columns_required_containers_on_demand (knex : Knex)
    (oldRelations newRelations : list Relation.t) (tableName : string)
    (d : Diff.t) :
  columnsShape (diffOf (analyze knex oldRelations newRelations tableName d)) =
    columnsShape d /\
  (forall relations relId rel,
     findRelation relations relId = Some rel ->
     Relation.type rel = many_to_one \/ Relation.type rel = one_to_one ->
     hasColumnsDelete d = false ->
     deleted relations relId d = Throw TypeError d) /\
  (forall relations relId rel,
     findRelation relations relId = Some rel ->
     Relation.type rel = many_to_one \/ Relation.type rel = one_to_one ->
     hasColumnsCreate d = false ->
     created relations tableName relId d = Throw TypeError d) /\
  (hasColumnsCreate d = true ->
   hasColumnsDelete d = true ->
   isTypeError (analyze knex oldRelations newRelations tableName d) = false).
Proof.
  split; [|split; [|split]].
  - pose proof (analyzeRelationChanges_respects getForeignKeyColumnName
                  getJunctionTableName getJunctionColumnNames _ _ _ knex
                  oldRelations newRelations tableName
                  (columnsShape_plannerRespects (columnsShape d)) d eq_refl) as H.
    destruct (analyze knex oldRelations newRelations tableName d); exact H.
  - intros relations relId rel Hfind Htype Hmissing.
    unfold deletedRelation. rewrite Hfind.
    destruct Htype as [-> | ->]; cbn [String.eqb orb];
      apply pushColumnsDelete_missing, Hmissing.
  - intros relations relId rel Hfind Htype Hmissing.
    unfold createdRelation. rewrite Hfind.
    destruct Htype as [-> | ->]; cbn [String.eqb orb];
      apply pushColumnsCreate_missing, Hmissing.
  - intros Hc Hd.
    pose proof (analyzeRelationChanges_respects getForeignKeyColumnName
                  getJunctionTableName getJunctionColumnNames _ _ _ knex
                  oldRelations newRelations tableName
                  columnsReady_plannerRespects d (conj Hc Hd)) as H.
    destruct (analyze knex oldRelations newRelations tableName d) as [d'|[|m] d'];
      [reflexivity | contradiction | reflexivity].
Qed.

End Analysis.

(** ** The classifier *)

Module JsMapFacts.
Section Facts.
Context {V : Type}.
Implicit Types (m : JsMap.t V) (k : Z) (v : V).

Lemma get_None_keys k m : JsMap.get k m = None <-> ~ In k (JsMap.keys m).
Proof.
  induction m as [|[k' v'] m IH]; cbn; [tauto|].
  destruct (Z.eqb_spec k' k) as [->|Hne].
  - split; [discriminate | intros H; exfalso; apply H; left; reflexivity].
  - rewrite IH. tauto.
Qed.

Lemma has_keys k m : JsMap.has k m = true <-> In k (JsMap.keys m).
Proof.
  unfold JsMap.has. pose proof (get_None_keys k m) as H.
  destruct (JsMap.get k m).
  - split; [intros _ | reflexivity].
    destruct (in_dec Z.eq_dec k (JsMap.keys m)) as [Hin|Hout];
      [exact Hin | apply H in Hout; discriminate].
  - split; [discriminate | intros Hin]. exfalso. apply H; [reflexivity | exact Hin].
Qed.

Lemma set_fresh k v m : ~ In k (JsMap.keys m) -> JsMap.set k v m = m ++ [(k, v)].
Proof.
  induction m as [|[k' v'] m IH]; cbn; [reflexivity|].
  intros Hout. destruct (Z.eqb_spec k' k) as [->|Hne]; [tauto|].
  rewrite IH; tauto.
Qed.

Lemma fold_set_fresh (entries : list (Z * V)) m :
  List.NoDup (JsMap.keys m ++ List.map fst entries) ->
  fold_left (fun m e => JsMap.set (fst e) (snd e) m) entries m = m ++ entries.
Proof.
  revert m. induction entries as [|[k v] entries IH]; intros m Hnd; cbn.
  - symmetry. apply app_nil_r.
  - cbn in Hnd. rewrite set_fresh.
    + rewrite IH; [rewrite <- app_assoc; reflexivity|].
      unfold JsMap.keys. rewrite List.map_app, <- app_assoc. exact Hnd.
    + apply NoDup_remove_2 in Hnd. intros Hin. apply Hnd, in_or_app. left.
      exact Hin.
Qed.

(** With distinct keys, [new Map(entries)] holds the entries as given. *)
Lemma ofEntries_distinct (entries : list (Z * V)) :
  List.NoDup (List.map fst entries) -> JsMap.ofEntries entries = entries.
Proof. intros Hnd. unfold JsMap.ofEntries. rewrite fold_set_fresh; auto. Qed.
End Facts.
End JsMapFacts.

Lemma relMap_distinct (relations : list Relation.t) :
  List.NoDup (List.map Relation.id relations) ->
  relMap relations = List.map (fun r => (Relation.id r, r)) relations.
Proof.
  intros Hnd. unfold relMap. apply JsMapFacts.ofEntries_distinct.
  rewrite List.map_map. exact Hnd.
Qed.

Lemma relMap_keys (relations : list Relation.t) :
  List.NoDup (List.map Relation.id relations) ->
  JsMap.keys (relMap relations) = List.map Relation.id relations.
Proof.
  intros Hnd. rewrite (relMap_distinct _ Hnd). unfold JsMap.keys.
  apply List.map_map.
Qed.

Lemma deletedRelIds_filter (oldRelations : list Relation.t) (newRelMap : JsMap.t Relation.t) :
  deletedRelIds oldRelations newRelMap =
  List.filter (fun i => negb (JsMap.has i newRelMap)) (List.map Relation.id oldRelations).
Proof. unfold deletedRelIds. symmetry. apply filter_map_swap. Qed.

Lemma createdRelIds_filter (newRelations : list Relation.t) (oldRelMap : JsMap.t Relation.t) :
  createdRelIds newRelations oldRelMap =
  List.filter (fun i => negb (JsMap.has i oldRelMap)) (List.map Relation.id newRelations).
Proof. unfold createdRelIds. symmetry. apply filter_map_swap. Qed.

Lemma matchedRelIds_filter (oldRelMap newRelMap : JsMap.t Relation.t) :
  matchedRelIds oldRelMap newRelMap =
  List.filter (fun i => JsMap.has i oldRelMap) (JsMap.keys newRelMap).
Proof.
  unfold matchedRelIds, matchedPairs, JsMap.keys, JsMap.has.
  induction newRelMap as [|[k v] m IH]; [reflexivity|].
  cbn [omap list_omap List.map List.filter fst snd].
  destruct (JsMap.get k oldRelMap); cbn [List.map fst]; rewrite IH; reflexivity.
Qed.

(** Name resolution keeps the ids. *)
Lemma resolved_ids (knex : Knex) (oldRelations newRelations : list Relation.t)
    (tableName : string) (relations : list Relation.t) :
  List.map Relation.id (resolved knex oldRelations newRelations tableName relations) =
  List.map Relation.id relations.
Proof. unfold resolved. rewrite List.map_map. reflexivity. Qed.

(** C2. With ids distinct within the old list and within the new list, the
    classifier's groups are: deleted, the old ids that are not new ids;
    created, the new ids that are not old ids; matched, the ids that are
    both.  The groups are pairwise disjoint, an id is in one of them
    exactly when it is an old or a new id, and no id is listed twice. *)
Theorem C2_classifier_partitions_ids (oldRelations newRelations : list Relation.t) :
  List.NoDup (List.map Relation.id oldRelations) ->
  List.NoDup (List.map Relation.id newRelations) ->
  let oldIds := List.map Relation.id oldRelations in
  let newIds := List.map Relation.id newRelations in
  let deletedIds := deletedRelIds oldRelations (relMap newRelations) in
  let createdIds := createdRelIds newRelations (relMap oldRelations) in
  let matchedIds := matchedRelIds (relMap oldRelations) (relMap newRelations) in
  (forall i, In i deletedIds <-> In i oldIds /\ ~ In i newIds) /\
  (forall i, In i createdIds <-> In i newIds /\ ~ In i oldIds) /\
  (forall i, In i matchedIds <-> In i oldIds /\ In i newIds) /\
  (forall i, In i deletedIds -> ~ In i createdIds) /\
  (forall i, In i deletedIds -> ~ In i matchedIds) /\
  (forall i, In i createdIds -> ~ In i matchedIds) /\
  (forall i, In i deletedIds \/ In i createdIds \/ In i matchedIds <->
             In i oldIds \/ In i newIds) /\
  List.NoDup (deletedIds ++ createdIds ++ matchedIds).
Proof.
  intros Hold Hnew oldIds newIds deletedIds createdIds matchedIds.
  assert (Hhas_old : forall i, JsMap.has i (relMap oldRelations) = true <-> In i oldIds).
  { intros i. rewrite JsMapFacts.has_keys, (relMap_keys _ Hold). reflexivity. }
  assert (Hhas_new : forall i, JsMap.has i (relMap newRelations) = true <-> In i newIds).
  { intros i. rewrite JsMapFacts.has_keys, (relMap_keys _ Hnew). reflexivity. }
  assert (Hdel : forall i, In i deletedIds <-> In i oldIds /\ ~ In i newIds).
  { intros i. unfold deletedIds. rewrite deletedRelIds_filter, filter_In.
    rewrite negb_true_iff, <- not_true_iff_false, Hhas_new. reflexivity. }
  assert (Hcre : forall i, In i createdIds <-> In i newIds /\ ~ In i oldIds).
  { intros i. unfold createdIds. rewrite createdRelIds_filter, filter_In.
    rewrite negb_true_iff, <- not_true_iff_false, Hhas_old. reflexivity. }
  assert (Hmat : forall i, In i matchedIds <-> In i oldIds /\ In i newIds).
  { intros i. unfold matchedIds. rewrite matchedRelIds_filter, filter_In.
    rewrite (relMap_keys _ Hnew), Hhas_old. fold newIds. tauto. }
  assert (Hdc : forall i, In i deletedIds -> ~ In i createdIds).
  { intros i. rewrite Hdel, Hcre. tauto. }
  assert (Hdm : forall i, In i deletedIds -> ~ In i matchedIds).
  { intros i. rewrite Hdel, Hmat. tauto. }
  assert (Hcm : forall i, In i createdIds -> ~ In i matchedIds).
  { intros i. rewrite Hcre, Hmat. tauto. }
  split; [exact Hdel|]. split; [exact Hcre|]. split; [exact Hmat|].
  split; [exact Hdc|]. split; [exact Hdm|]. split; [exact Hcm|]. split.
  - intros i. rewrite Hdel, Hcre, Hmat.
    destruct (in_dec Z.eq_dec i oldIds), (in_dec Z.eq_dec i newIds); tauto.
  - apply List.NoDup_app.
    + unfold deletedIds. rewrite deletedRelIds_filter. apply List.NoDup_filter, Hold.
    + apply List.NoDup_app.
      * unfold createdIds. rewrite createdRelIds_filter.
        apply List.NoDup_filter, Hnew.
      * unfold matchedIds. rewrite matchedRelIds_filter, (relMap_keys _ Hnew).
        apply List.NoDup_filter, Hnew.
      * exact Hcm.
    + intros i Hi Hin. apply in_app_or in Hin. destruct Hin as [Hin|Hin].
      * exact (Hdc i Hi Hin).
      * exact (Hdm i Hi Hin).
Qed.

(** ** Name resolution *)

(** A relation without [targetTableName] whose reference carries a non-zero
    identifier that the lookup found gets the name found. *)
Lemma resolveRelation_found (tableName : string) (targetTablesMap : gmap Z string)
    (rel : Relation.t) (i : Z) (name : string) :
  truthy (Relation.targetTableName rel) = false ->
  Relation.targetTable rel = TableRef i ->
  i <> 0%Z ->
  targetTablesMap !! i = Some name ->
  Relation.targetTableName (resolveRelation tableName targetTablesMap rel) = Str name.
Proof.
  intros Hname Href Hi Hfound. unfold resolveRelation, targetTableIdOf, mapGet.
  cbn. rewrite Hname, Href, Hfound. unfold truthyNumber.
  destruct (Z.eqb_spec i 0); [contradiction | reflexivity].
Qed.

(** With a non-zero identifier that the lookup did not find, it is left
    undefined. *)
Lemma resolveRelation_not_found (tableName : string) (targetTablesMap : gmap Z string)
    (rel : Relation.t) (i : Z) :
  truthy (Relation.targetTableName rel) = false ->
  Relation.targetTable rel = TableRef i ->
  i <> 0%Z ->
  targetTablesMap !! i = None ->
  Relation.targetTableName (resolveRelation tableName targetTablesMap rel) = Undefined.
Proof.
  intros Hname Href Hi Hnone. unfold resolveRelation, targetTableIdOf, mapGet.
  cbn. rewrite Hname, Href, Hnone. unfold truthyNumber.
  destruct (Z.eqb_spec i 0); [contradiction | reflexivity].
Qed.

(** A plain name goes through as it is: it stays in [targetTable] and, when
    the relation has no [targetTableName], becomes the [targetTableName]. *)
Lemma resolveRelation_plain_name (tableName : string) (targetTablesMap : gmap Z string)
    (rel : Relation.t) (name : string) :
  Relation.targetTable rel = Str name ->
  Relation.targetTable (resolveRelation tableName targetTablesMap rel) = Str name /\
  Relation.targetTableName (resolveRelation tableName targetTablesMap rel) =
    (if truthy (Relation.targetTableName rel)
     then Relation.targetTableName rel
     else Str name).
Proof.
  intros Hplain. unfold resolveRelation, targetTableIdOf. cbn. rewrite Hplain.
  split; reflexivity.
Qed.

(** The identifiers asked of the lookup include zero. *)
Lemma targetTableIds_zero (oldRelations newRelations : list Relation.t)
    (rel : Relation.t) :
  In rel (oldRelations ++ newRelations) ->
  Relation.targetTable rel = TableRef 0 ->
  In 0%Z (targetTableIds oldRelations newRelations).
Proof.
  intros Hin Href. unfold targetTableIds.
  apply list_elem_of_In, list_elem_of_omap. exists rel. split.
  - apply list_elem_of_In, Hin.
  - unfold targetTableIdOf. rewrite Href. reflexivity.
Qed.

(** C7. With the target referenced by identifier 0, the identifier is asked
    of the lookup with the others, but the resolution step then tests it
    for truthiness: whether the lookup found a name for it or not, the
    relation's [targetTableName] becomes the reference object itself,
    neither the name found nor undefined, and the junction-table entry
    planned from it carries that object as its target. *)
Theorem C7_identifier_zero_is_not_resolved :
  let rel := ExampleNaming.relation 1 "tags" many_to_many (TableRef 0) in
  let found := ExampleNaming.knexOf [TableRow.mk 0 "Tag"] in
  let notFound := ExampleNaming.knexOf [] in
  let ids := targetTableIds [] [rel] in
  ids = [0%Z] /\
  buildTargetTablesMap found ids !! 0%Z = Some "Tag" /\
  Relation.targetTableName (resolveRelation "Post" (buildTargetTablesMap found ids) rel)
    = TableRef 0 /\
  buildTargetTablesMap notFound ids !! 0%Z = None /\
  Relation.targetTableName (resolveRelation "Post" (buildTargetTablesMap notFound ids) rel)
    = TableRef 0 /\
  junctionCreateOf (diffOf (ExampleNaming.analyze found [] [rel] "Post" freshDiff)) =
    [JunctionCreate.mk "Post_tags_undefined" "Post" (TableRef 0) "PostId" "undefinedId"].
Proof. vm_compute. repeat split. Qed.

(** ** The theorems at work on concrete relations *)

Lemma C1_witness :
  exists e d',
    ExampleNaming.analyze Examples.noTables
      [Examples.author many_to_one; Examples.comments one_to_many]
      [Examples.author many_to_many; Examples.comments many_to_many]
      "Post" freshDiff = Throw e d' /\
    e = Error (missingInverseMessage "comments") /\
    columnsDeleteOf d' = [ColumnDrop.mk "authorId" true] /\
    crossTableOf d' = [].
Proof.
  destruct (C1_one_to_many_to_many_to_many_without_inverse
              ExampleNaming.getForeignKeyColumnName
              ExampleNaming.getJunctionTableName
              ExampleNaming.getJunctionColumnNames
              Examples.noTables
              [Examples.author many_to_one; Examples.comments one_to_many]
              [Examples.author many_to_many; Examples.comments many_to_many]
              "Post" 2
              (Examples.seen (Examples.comments one_to_many))
              (Examples.seen (Examples.comments many_to_many))
              [(1%Z, Examples.seen (Examples.author many_to_many))] []
              freshDiff
              eq_refl eq_refl eq_refl eq_refl eq_refl)
    as (e & d' & Hrun & Hbefore).
  exists e, d'. split; [exact Hrun|].
  destruct (Hbefore _ eq_refl) as (He & _ & Hsame).
  destruct Hsame as (_ & Hdel & Hcross & _).
  split; [exact He|]. split; [exact Hdel | exact Hcross].
Defined.

Lemma C2_witness :
  List.NoDup
    (deletedRelIds [Examples.author many_to_one; Examples.comments one_to_many]
       (relMap [Examples.comments many_to_many; Examples.tags]) ++
     createdRelIds [Examples.comments many_to_many; Examples.tags]
       (relMap [Examples.author many_to_one; Examples.comments one_to_many]) ++
     matchedRelIds (relMap [Examples.author many_to_one; Examples.comments one_to_many])
       (relMap [Examples.comments many_to_many; Examples.tags])).
Proof.
  assert (Hold : List.NoDup
            (List.map Relation.id
               [Examples.author many_to_one; Examples.comments one_to_many])).
  { cbn. repeat constructor; cbn; intuition discriminate. }
  assert (Hnew : List.NoDup
            (List.map Relation.id [Examples.comments many_to_many; Examples.tags])).
  { cbn. repeat constructor; cbn; intuition discriminate. }
  exact (proj2 (proj2 (proj2 (proj2 (proj2 (proj2 (proj2
           (C2_classifier_partitions_ids _ _ Hold Hnew)))))))).
Defined.

Lemma C3_witness :
  exists d',
    handleRelationTypeChange ExampleNaming.getForeignKeyColumnName
      ExampleNaming.getJunctionTableName ExampleNaming.getJunctionColumnNames
      (Examples.seen (Examples.author many_to_one))
      (Examples.seen (Examples.author many_to_many)) "Post" freshDiff = Ok d' /\
    columnsDeleteOf d' = [ColumnDrop.mk "authorId" true] /\
    junctionCreateOf d' =
      [JunctionCreate.mk "Post_author_User" "Post" (Str "User") "PostId" "UserId"].
Proof.
  destruct (proj2 (C3_many_to_one_to_many_to_many
                     ExampleNaming.getForeignKeyColumnName
                     ExampleNaming.getJunctionTableName
                     ExampleNaming.getJunctionColumnNames
                     (Examples.seen (Examples.author many_to_one))
                     (Examples.seen (Examples.author many_to_many))
                     "Post" freshDiff eq_refl eq_refl) eq_refl)
    as (d' & Hrun & Hdel & Hjun & _).
  exists d'. split; [exact Hrun|]. split; [exact Hdel | exact Hjun].
Defined.

Lemma C4_witness :
  handleCreatedRelations ExampleNaming.getForeignKeyColumnName
    ExampleNaming.getJunctionTableName ExampleNaming.getJunctionColumnNames
    [Examples.seen (Examples.comments one_to_many); Examples.seen Examples.tags]
    ([] ++ 2%Z :: [3%Z]) "Post" freshDiff =
  handleCreatedRelations ExampleNaming.getForeignKeyColumnName
    ExampleNaming.getJunctionTableName ExampleNaming.getJunctionColumnNames
    [Examples.seen (Examples.comments one_to_many); Examples.seen Examples.tags]
    ([] ++ [3%Z]) "Post" freshDiff.
Proof.
  exact (proj2 (C4_created_one_to_many_without_inverse
                  ExampleNaming.getForeignKeyColumnName
                  ExampleNaming.getJunctionTableName
                  ExampleNaming.getJunctionColumnNames
                  [Examples.seen (Examples.comments one_to_many);
                   Examples.seen Examples.tags]
                  "Post" 2 (Examples.seen (Examples.comments one_to_many))
                  eq_refl eq_refl eq_refl) [] [3%Z] freshDiff).
Defined.

Lemma C5_witness :
  exists d',
    ExampleNaming.analyze Examples.tables [] [Examples.tags] "Post" freshDiff = Ok d' /\
    junctionCreateOf d' =
      [JunctionCreate.mk "Post_tags_Tag" "Post" (Str "Tag") "PostId" "TagId"].
Proof.
  destruct (proj2 (C5_created_many_to_many_post_tags
                     ExampleNaming.getForeignKeyColumnName
                     ExampleNaming.getJunctionTableName
                     ExampleNaming.getJunctionColumnNames freshDiff)
              Examples.tables Examples.tags eq_refl eq_refl
              ltac:(vm_compute; reflexivity))
    as (d' & Hrun & Hjun & _).
  exists d'. split; [exact Hrun | exact Hjun].
Defined.

Lemma C6_witness :
  exists d',
    handleRelationTypeChange ExampleNaming.getForeignKeyColumnName
      ExampleNaming.getJunctionTableName ExampleNaming.getJunctionColumnNames
      (Examples.seen (Examples.author many_to_one))
      (Examples.seen (Examples.author one_to_one)) "Post" freshDiff = Ok d' /\
    columnsCreateOf d' = [] /\ columnsDeleteOf d' = [] /\ crossTableOf d' = [] /\
    junctionCreateOf d' = [] /\ junctionDropOf d' = [] /\ junctionUpdateOf d' = [].
Proof.
  exact (C6_many_to_one_one_to_one_emits_nothing
           ExampleNaming.getForeignKeyColumnName
           ExampleNaming.getJunctionTableName
           ExampleNaming.getJunctionColumnNames
           (Examples.seen (Examples.author many_to_one))
           (Examples.seen (Examples.author one_to_one)) "Post" freshDiff
           (or_introl (conj eq_refl eq_refl))).
Defined.

Lemma C10_witness :
  deletedRelation ExampleNaming.getForeignKeyColumnName
    [Examples.seen (Examples.author many_to_one)] 1 Examples.noColumns =
    Throw TypeError Examples.noColumns /\
  createdRelation ExampleNaming.getForeignKeyColumnName
    ExampleNaming.getJunctionTableName ExampleNaming.getJunctionColumnNames
    [Examples.seen (Examples.author many_to_one)] "Post" 1 Examples.noColumns =
    Throw TypeError Examples.noColumns /\
  isTypeError
    (ExampleNaming.analyze Examples.tables
       [Examples.author many_to_one; Examples.comments one_to_many]
       [Examples.author many_to_many; Examples.tags] "Post" freshDiff) = false.
Proof.
  pose proof (C10_columns_required_containers_on_demand
                ExampleNaming.getForeignKeyColumnName
                ExampleNaming.getJunctionTableName
                ExampleNaming.getJunctionColumnNames
                Examples.noTables [] [] "Post" Examples.noColumns)
    as (_ & Hdelete & Hcreate & _).
  pose proof (C10_columns_required_containers_on_demand
                ExampleNaming.getForeignKeyColumnName
                ExampleNaming.getJunctionTableName
                ExampleNaming.getJunctionColumnNames
                Examples.tables
                [Examples.author many_to_one; Examples.comments one_to_many]
                [Examples.author many_to_many; Examples.tags] "Post" freshDiff)
    as (_ & _ & _ & Hready).
  split; [|split].
  - exact (Hdelete [Examples.seen (Examples.author many_to_one)] 1%Z
             (Examples.seen (Examples.author many_to_one))
             eq_refl (or_introl eq_refl) eq_refl).
  - exact (Hcreate [Examples.seen (Examples.author many_to_one)] 1%Z
             (Examples.seen (Examples.author many_to_one))
             eq_refl (or_introl eq_refl) eq_refl).
  - exact (Hready eq_refl eq_refl).
Defined.

(** ** Two runs over the same relation objects *)

Lemma live_app (heap more : list Relation.t) (refs : list nat) :
  live heap refs -> live (heap ++ more) refs.
Proof.
  unfold live. intros H. eapply Forall_impl; [exact H|].
  intros r Hr. cbn in Hr. rewrite length_app. lia.
Qed.

Lemma readAll_app (heap more : list Relation.t) (refs : list nat) :
  live heap refs -> readAll (heap ++ more) refs = readAll heap refs.
Proof.
  unfold live, readAll. induction refs as [|r refs IH]; intros H; [reflexivity|].
  apply Forall_cons in H. destruct H as [Hr H]. cbn [omap list_omap].
  rewrite (lookup_app_l heap more r Hr), (IH H). reflexivity.
Qed.

Lemma readAll_live_length (heap : list Relation.t) (refs : list nat) :
  live heap refs -> length (readAll heap refs) = length refs.
Proof.
  unfold live, readAll. induction refs as [|r refs IH]; intros H; [reflexivity|].
  apply Forall_cons in H. destruct H as [Hr H]. cbn [omap list_omap].
  destruct (lookup_lt_is_Some_2 heap r Hr) as [object Hobject].
  rewrite Hobject. cbn [length]. rewrite (IH H). reflexivity.
Qed.

Lemma readAll_allocated (heap objects : list Relation.t) :
  readAll (heap ++ objects) (List.seq (length heap) (length objects)) = objects.
Proof.
  revert heap. induction objects as [|object objects IH]; intros heap;
    [reflexivity|].
  cbn [length List.seq]. unfold readAll. cbn [omap list_omap].
  rewrite (list_lookup_middle heap objects object (length heap) eq_refl).
  f_equal. change (object :: objects) with ([object] ++ objects).
  rewrite app_assoc.
  replace (S (length heap)) with (length (heap ++ [object]))
    by (rewrite length_app; cbn; lia).
  apply IH.
Qed.

(** The copies are allocated after the objects that exist, which stay as
    they are. *)
Lemma mapCopy_allocates (f : Relation.t -> Relation.t) (refs : list nat)
    (heap : list Relation.t) :
  live heap refs ->
  mapCopy f refs heap =
  (List.seq (length heap) (length refs), heap ++ List.map f (readAll heap refs)).
Proof.
  revert heap. induction refs as [|r refs IH]; intros heap Hlive.
  - cbn. rewrite app_nil_r. reflexivity.
  - pose proof Hlive as Hlive'. apply Forall_cons in Hlive'.
    destruct Hlive' as [Hr Hrefs].
    destruct (lookup_lt_is_Some_2 heap r Hr) as [object Hobject].
    cbn [mapCopy]. rewrite Hobject. unfold allocate.
    rewrite (IH (heap ++ [f object]) (live_app _ _ _ Hrefs)).
    rewrite (readAll_app _ _ _ Hrefs).
    unfold readAll at 2. cbn [omap list_omap]. rewrite Hobject.
    cbn [List.map length List.seq]. rewrite length_app, <- app_assoc. cbn [length app].
    replace (length heap + 1) with (S (length heap)) by lia. reflexivity.
Qed.

Section TwoRuns.

Variable getForeignKeyColumnName : string -> string.
Variable getJunctionTableName : string -> string -> JsValue -> string.
Variable getJunctionColumnNames : string -> string -> JsValue -> string * string.

Local Abbreviation analyze :=
  (analyzeRelationChanges getForeignKeyColumnName getJunctionTableName
     getJunctionColumnNames).
Local Abbreviation analyzeOnHeap :=
  (analyzeRelationChangesOnHeap getForeignKeyColumnName getJunctionTableName
     getJunctionColumnNames).

(** What a run does to the heap and to the diff: it allocates the resolved
    copies, and plans from the objects the two arrays point to. *)
Lemma analyzeRelationChangesOnHeap_run (knex : Knex) (oldRefs newRefs : list nat)
    (tableName : string) (heap : list Relation.t) (diff : Diff.t) :
  live heap oldRefs ->
  live heap newRefs ->
  let olds := readAll heap oldRefs in
  let news := readAll heap newRefs in
  analyzeOnHeap knex oldRefs newRefs tableName heap diff =
  (heap ++ resolved knex olds news tableName olds
        ++ resolved knex olds news tableName news,
   analyze knex olds news tableName diff).
Proof.
  intros Hold Hnew olds news. unfold analyzeRelationChangesOnHeap.
  fold olds news. cbv zeta.
  set (f := resolveRelation tableName
              (buildTargetTablesMap knex (targetTableIds olds news))).
  rewrite (mapCopy_allocates f oldRefs heap Hold). fold olds.
  rewrite (mapCopy_allocates f newRefs (heap ++ List.map f olds)
             (live_app _ _ _ Hnew)).
  rewrite (readAll_app heap (List.map f olds) newRefs Hnew). fold news.
  assert (Holds : readAll ((heap ++ List.map f olds) ++ List.map f news)
                    (List.seq (length heap) (length oldRefs)) = List.map f olds).
  { rewrite readAll_app.
    - replace (length oldRefs) with (length (List.map f olds))
        by (rewrite length_map; apply readAll_live_length, Hold).
      apply readAll_allocated.
    - unfold live. apply Forall_forall. intros r Hr. apply list_elem_of_In, in_seq in Hr.
      rewrite length_app, length_map. unfold olds.
      rewrite (readAll_live_length _ _ Hold). lia. }
  assert (Hnews : readAll ((heap ++ List.map f olds) ++ List.map f news)
                    (List.seq (length (heap ++ List.map f olds)) (length newRefs)) =
                  List.map f news).
  { replace (length newRefs) with (length (List.map f news))
      by (rewrite length_map; apply readAll_live_length, Hnew).
    apply readAll_allocated. }
  rewrite Holds, Hnews. unfold analyzeRelationChanges, resolved. cbv zeta.
  fold f. rewrite <- app_assoc. reflexivity.
Qed.


End TwoRuns.


(** * Further properties of the planners *)

(** ** What one mutation does to the six lists *)

Lemma pushColumnsDelete_operations (e : ColumnDrop.t) (d : Diff.t) :
  hasColumnsDelete d = true ->
  exists d',
    pushColumnsDelete e d = Ok d' /\
    operationsOf d' =
      (columnsCreateOf d, columnsDeleteOf d ++ [e], crossTableOf d,
       junctionCreateOf d, junctionDropOf d, junctionUpdateOf d) /\
    Diff.crossTableOperations d' = Diff.crossTableOperations d /\
    Diff.junctionTables d' = Diff.junctionTables d /\
    hasColumnsCreate d' = hasColumnsCreate d /\
    hasColumnsDelete d' = true.
Proof.
  destruct d as [[[cc [cd|]]|] x j]; cbn; try discriminate.
  intros _. eexists. split; [reflexivity|]. repeat split.
Qed.

Lemma pushColumnsCreate_operations (e : ColumnDef.t) (d : Diff.t) :
  hasColumnsCreate d = true ->
  exists d',
    pushColumnsCreate e d = Ok d' /\
    operationsOf d' =
      (columnsCreateOf d ++ [e], columnsDeleteOf d, crossTableOf d,
       junctionCreateOf d, junctionDropOf d, junctionUpdateOf d) /\
    Diff.crossTableOperations d' = Diff.crossTableOperations d /\
    Diff.junctionTables d' = Diff.junctionTables d /\
    hasColumnsCreate d' = true /\
    hasColumnsDelete d' = hasColumnsDelete d.
Proof.
  destruct d as [[[[cc|] cd]|] x j]; cbn; try discriminate.
  intros _. eexists. split; [reflexivity|]. repeat split.
Qed.

Lemma pushCrossTableOperation_operations (e : CrossTableOp.t) (d : Diff.t) :
  exists d',
    (ensureCrossTableOperations ;; pushCrossTableOperation e) d = Ok d' /\
    operationsOf d' =
      (columnsCreateOf d, columnsDeleteOf d, crossTableOf d ++ [e],
       junctionCreateOf d, junctionDropOf d, junctionUpdateOf d) /\
    Diff.columns d' = Diff.columns d /\
    Diff.junctionTables d' = Diff.junctionTables d.
Proof.
  eexists. split; [apply ensure_pushCrossTableOperation|].
  destruct d as [c x j]. repeat split.
Qed.

Lemma pushJunctionCreate_operations (e : JunctionCreate.t) (d : Diff.t) :
  exists d',
    (ensureJunctionTables ;; pushJunctionCreate e) d = Ok d' /\
    operationsOf d' =
      (columnsCreateOf d, columnsDeleteOf d, crossTableOf d,
       junctionCreateOf d ++ [e], junctionDropOf d, junctionUpdateOf d) /\
    Diff.columns d' = Diff.columns d /\
    Diff.crossTableOperations d' = Diff.crossTableOperations d.
Proof.
  eexists. split; [apply ensure_pushJunctionCreate|].
  destruct d as [c x j]. repeat split.
Qed.

Lemma pushJunctionDrop_operations (e : JunctionDrop.t) (d : Diff.t) :
  exists d',
    (ensureJunctionTables ;; pushJunctionDrop e) d = Ok d' /\
    operationsOf d' =
      (columnsCreateOf d, columnsDeleteOf d, crossTableOf d,
       junctionCreateOf d, junctionDropOf d ++ [e], junctionUpdateOf d) /\
    Diff.columns d' = Diff.columns d /\
    Diff.crossTableOperations d' = Diff.crossTableOperations d.
Proof.
  eexists. split; [apply ensure_pushJunctionDrop|].
  destruct d as [c x j]. repeat split.
Qed.

Lemma withContainers_operations (d : Diff.t) :
  operationsOf (withContainers d) = operationsOf d.
Proof. destruct d as [c [x|] [j|]]; reflexivity. Qed.

Lemma withContainers_hasColumns (d : Diff.t) :
  hasColumnsCreate (withContainers d) = hasColumnsCreate d /\
  hasColumnsDelete (withContainers d) = hasColumnsDelete d.
Proof. split; reflexivity. Qed.

(** On a diff with its containers, the pushes find them. *)
Lemma pushCrossTableOperation_withContainers (e : CrossTableOp.t) (d : Diff.t) :
  pushCrossTableOperation e (withContainers d) =
  Ok (Diff.mk (Diff.columns d) (Some (crossTableOf d ++ [e]))
        (Some (default JunctionTables.empty (Diff.junctionTables d)))).
Proof. reflexivity. Qed.

Lemma inverseOf_present (rel : Relation.t) (inverse : string) :
  Relation.inversePropertyName rel = Some inverse ->
  truthyString inverse = true ->
  inverseOf rel = Some inverse.
Proof. intros H Ht. unfold inverseOf. rewrite H, Ht. reflexivity. Qed.

Lemma knownType_false (t : string) :
  knownType t = false ->
  String.eqb t many_to_one = false /\ String.eqb t one_to_one = false /\
  String.eqb t one_to_many = false /\ String.eqb t many_to_many = false.
Proof.
  unfold knownType. intros H.
  destruct (String.eqb t many_to_one), (String.eqb t one_to_one),
    (String.eqb t one_to_many), (String.eqb t many_to_many);
    try discriminate H; repeat split.
Qed.

(** ** The deletion and creation planners, relation by relation *)

Section SinglePlanners.

Variable getForeignKeyColumnName : string -> string.
Variable getJunctionTableName : string -> string -> JsValue -> string.
Variable getJunctionColumnNames : string -> string -> JsValue -> string * string.

Local Abbreviation deleted := (deletedRelation getForeignKeyColumnName).
Local Abbreviation created :=
  (createdRelation getForeignKeyColumnName getJunctionTableName
     getJunctionColumnNames).
Local Abbreviation handleDeleted := (handleDeletedRelations getForeignKeyColumnName).

(** X1. Deleting a many-to-one or one-to-one relation, on a diff that has
    [columns.delete], appends one entry to [columns.delete] and nothing
    else: the foreign-key column ([foreignKeyColumn] if set, else the name
    derived from [propertyName]), flagged as a foreign key.  The two
    on-demand containers are left as they were. *)
Theorem X1_deleted_own_foreign_key (oldRelations : list Relation.t) (relId : Z)
    (rel : Relation.t) (d : Diff.t) :
  findRelation oldRelations relId = Some rel ->
  Relation.type rel = many_to_one \/ Relation.type rel = one_to_one ->
  hasColumnsDelete d = true ->
  exists d',
    deleted oldRelations relId d = Ok d' /\
    operationsOf d' =
      (columnsCreateOf d,
       columnsDeleteOf d ++
         [ColumnDrop.mk
            (orElse (Relation.foreignKeyColumn rel)
               (getForeignKeyColumnName (Relation.propertyName rel)))
            true],
       crossTableOf d, junctionCreateOf d, junctionDropOf d, junctionUpdateOf d) /\
    Diff.crossTableOperations d' = Diff.crossTableOperations d /\
    Diff.junctionTables d' = Diff.junctionTables d.
Proof.
  intros Hfind Htype Hdel.
  destruct (pushColumnsDelete_operations (ownColumnDrop getForeignKeyColumnName rel)
              d Hdel) as (d' & Hrun & Hops & Hx & Hj & _).
  exists d'. split; [|auto].
  unfold deletedRelation. rewrite Hfind.
  destruct Htype as [-> | ->]; exact Hrun.
Qed.

(** X2. Deleting a one-to-many relation that names its inverse side appends
    one [dropColumn] operation to [crossTableOperations] and nothing else:
    against the relation's target table, for the column [foreignKeyColumn]
    if set, else the name derived from [inversePropertyName].  It needs
    nothing of the diff: [crossTableOperations] is made if it is not
    there, and [columns] and [junctionTables] are left as they were. *)
Theorem X2_deleted_one_to_many (oldRelations : list Relation.t) (relId : Z)
    (rel : Relation.t) (inverse : string) (d : Diff.t) :
  findRelation oldRelations relId = Some rel ->
  Relation.type rel = one_to_many ->
  Relation.inversePropertyName rel = Some inverse ->
  truthyString inverse = true ->
  exists d',
    deleted oldRelations relId d = Ok d' /\
    operationsOf d' =
      (columnsCreateOf d, columnsDeleteOf d,
       crossTableOf d ++
         [CrossTableOp.dropColumn (Relation.targetTableName rel)
            (orElse (Relation.foreignKeyColumn rel)
               (getForeignKeyColumnName inverse))
            true],
       junctionCreateOf d, junctionDropOf d, junctionUpdateOf d) /\
    Diff.columns d' = Diff.columns d /\
    Diff.junctionTables d' = Diff.junctionTables d.
Proof.
  intros Hfind Htype Hinv Htruthy.
  destruct (pushCrossTableOperation_operations
              (inverseColumnDrop getForeignKeyColumnName rel inverse) d)
    as (d' & Hrun & Hrest).
  exists d'. split; [|exact Hrest].
  unfold deletedRelation. rewrite Hfind, Htype.
  cbn [String.eqb orb]. rewrite (inverseOf_present _ _ Hinv Htruthy).
  exact Hrun.
Qed.

(** X3. A deleted one-to-many relation without [inversePropertyName] is
    skipped: its turn of the loop leaves the diff exactly as it was, no
    error is raised, and the deletion planner goes on as if its id were
    not in the list. *)
Theorem X3_deleted_one_to_many_without_inverse (oldRelations : list Relation.t)
    (relId : Z) (rel : Relation.t) :
  findRelation oldRelations relId = Some rel ->
  Relation.type rel = one_to_many ->
  present (Relation.inversePropertyName rel) = false ->
  (forall d, deleted oldRelations relId d = Ok d) /\
  (forall before after d,
     handleDeleted oldRelations (before ++ relId :: after) d =
     handleDeleted oldRelations (before ++ after) d).
Proof.
  intros Hfind Htype Hinv.
  assert (Hskip : forall d, deleted oldRelations relId d = Ok d).
  { intros d. unfold deletedRelation. rewrite Hfind, Htype.
    cbn [String.eqb orb]. rewrite (inverseOf_missing _ Hinv). reflexivity. }
  split; [exact Hskip|].
  intros before after d. unfold handleDeletedRelations.
  apply forOf_skip_one, Hskip.
Qed.

(** X4. Deleting a many-to-many relation appends one entry to
    [junctionTables.drop] and nothing else: the relation's
    [junctionTableName] with the reason "Relation deleted".  It needs
    nothing of the diff: [junctionTables] is made if it is not there. *)
Theorem X4_deleted_many_to_many (oldRelations : list Relation.t) (relId : Z)
    (rel : Relation.t) (d : Diff.t) :
  findRelation oldRelations relId = Some rel ->
  Relation.type rel = many_to_many ->
  exists d',
    deleted oldRelations relId d = Ok d' /\
    operationsOf d' =
      (columnsCreateOf d, columnsDeleteOf d, crossTableOf d, junctionCreateOf d,
       junctionDropOf d ++
         [JunctionDrop.mk (Relation.junctionTableName rel) "Relation deleted"],
       junctionUpdateOf d) /\
    Diff.columns d' = Diff.columns d /\
    Diff.crossTableOperations d' = Diff.crossTableOperations d.
Proof.
  intros Hfind Htype.
  destruct (pushJunctionDrop_operations
              (JunctionDrop.mk (Relation.junctionTableName rel) "Relation deleted") d)
    as (d' & Hrun & Hrest).
  exists d'. split; [|exact Hrest].
  unfold deletedRelation. rewrite Hfind, Htype. exact Hrun.
Qed.

(** X5. Creating a many-to-one or one-to-one relation, on a diff that has
    [columns.create], appends one column to [columns.create] and nothing
    else: named by [foreignKeyColumn] if set, else from [propertyName]; of
    type "int"; nullable unless [isNullable] says otherwise; a foreign key
    to column "id" of the relation's target table. *)
Theorem X5_created_own_foreign_key (newRelations : list Relation.t)
    (tableName : string) (relId : Z) (rel : Relation.t) (d : Diff.t) :
  findRelation newRelations relId = Some rel ->
  Relation.type rel = many_to_one \/ Relation.type rel = one_to_one ->
  hasColumnsCreate d = true ->
  exists d',
    created newRelations tableName relId d = Ok d' /\
    operationsOf d' =
      (columnsCreateOf d ++
         [ColumnDef.mk
            (orElse (Relation.foreignKeyColumn rel)
               (getForeignKeyColumnName (Relation.propertyName rel)))
            "int"
            (match Relation.isNullable rel with Some b => b | None => true end)
            true (Relation.targetTableName rel) "id"],
       columnsDeleteOf d, crossTableOf d, junctionCreateOf d, junctionDropOf d,
       junctionUpdateOf d) /\
    Diff.crossTableOperations d' = Diff.crossTableOperations d /\
    Diff.junctionTables d' = Diff.junctionTables d.
Proof.
  intros Hfind Htype Hcre.
  destruct (pushColumnsCreate_operations (ownColumn getForeignKeyColumnName rel)
              d Hcre) as (d' & Hrun & Hops & Hx & Hj & _).
  exists d'. split; [|split; [|auto]].
  - unfold createdRelation. rewrite Hfind.
    destruct Htype as [-> | ->]; exact Hrun.
  - rewrite Hops. unfold ownColumn. destruct (Relation.isNullable rel); reflexivity.
Qed.

(** X6. Creating a one-to-many relation that names its inverse side appends
    one [createColumn] operation to [crossTableOperations] and nothing
    else: on the relation's target table, a nullable "int" column named by
    [foreignKeyColumn] if set, else from [inversePropertyName], a foreign
    key to column "id" of the table being analysed.  It needs nothing of
    the diff. *)
Theorem X6_created_one_to_many (newRelations : list Relation.t)
    (tableName : string) (relId : Z) (rel : Relation.t) (inverse : string)
    (d : Diff.t) :
  findRelation newRelations relId = Some rel ->
  Relation.type rel = one_to_many ->
  Relation.inversePropertyName rel = Some inverse ->
  truthyString inverse = true ->
  exists d',
    created newRelations tableName relId d = Ok d' /\
    operationsOf d' =
      (columnsCreateOf d, columnsDeleteOf d,
       crossTableOf d ++
         [CrossTableOp.createColumn (Relation.targetTableName rel)
            (ColumnDef.mk
               (orElse (Relation.foreignKeyColumn rel)
                  (getForeignKeyColumnName inverse))
               "int" true true (Str tableName) "id")],
       junctionCreateOf d, junctionDropOf d, junctionUpdateOf d) /\
    Diff.columns d' = Diff.columns d /\
    Diff.junctionTables d' = Diff.junctionTables d.
Proof.
  intros Hfind Htype Hinv Htruthy.
  destruct (pushCrossTableOperation_operations
              (CrossTableOp.createColumn (Relation.targetTableName rel)
                 (inverseColumn getForeignKeyColumnName tableName rel inverse)) d)
    as (d' & Hrun & Hrest).
  exists d'. split; [|exact Hrest].
  unfold createdRelation. rewrite Hfind, Htype.
  cbn [String.eqb orb]. rewrite (inverseOf_present _ _ Hinv Htruthy).
  exact Hrun.
Qed.

(** X7. Creating a many-to-many relation, whatever the table, the property
    and the target, appends one entry to [junctionTables.create] and
    nothing else: the table being analysed as source, the relation's
    target as target, and the table and column names the naming helpers
    give for (table, [propertyName], target).  It needs nothing of the
    diff. *)
Theorem X7_created_many_to_many (newRelations : list Relation.t)
    (tableName : string) (relId : Z) (rel : Relation.t) (d : Diff.t) :
  findRelation newRelations relId = Some rel ->
  Relation.type rel = many_to_many ->
  let names :=
    getJunctionColumnNames tableName (Relation.propertyName rel)
      (Relation.targetTableName rel) in
  exists d',
    created newRelations tableName relId d = Ok d' /\
    operationsOf d' =
      (columnsCreateOf d, columnsDeleteOf d, crossTableOf d,
       junctionCreateOf d ++
         [JunctionCreate.mk
            (getJunctionTableName tableName (Relation.propertyName rel)
               (Relation.targetTableName rel))
            tableName (Relation.targetTableName rel) (fst names) (snd names)],
       junctionDropOf d, junctionUpdateOf d) /\
    Diff.columns d' = Diff.columns d /\
    Diff.crossTableOperations d' = Diff.crossTableOperations d.
Proof.
  intros Hfind Htype names.
  destruct (pushJunctionCreate_operations
              (junctionFor getJunctionTableName getJunctionColumnNames tableName rel) d)
    as (d' & Hrun & Hrest).
  exists d'. split; [|exact Hrest].
  unfold createdRelation. rewrite Hfind, Htype. exact Hrun.
Qed.

(** X8. A relation whose type is none of the four is passed over by both
    planners: deleting it and creating it leave the diff exactly as it
    was, without error. *)
Theorem X8_unknown_type_is_passed_over (relations : list Relation.t)
    (tableName : string) (relId : Z) (rel : Relation.t) (d : Diff.t) :
  findRelation relations relId = Some rel ->
  knownType (Relation.type rel) = false ->
  deleted relations relId d = Ok d /\
  created relations tableName relId d = Ok d.
Proof.
  intros Hfind Hunknown.
  destruct (knownType_false _ Hunknown) as (H1 & H2 & H3 & H4).
  unfold deletedRelation, createdRelation. rewrite Hfind, H1, H2, H3, H4.
  split; reflexivity.
Qed.

End SinglePlanners.

(** ** The transitions of the type-change resolver *)

Section Transitions.

Variable getForeignKeyColumnName : string -> string.
Variable getJunctionTableName : string -> string -> JsValue -> string.
Variable getJunctionColumnNames : string -> string -> JsValue -> string * string.

Local Abbreviation typeChange :=
  (handleRelationTypeChange getForeignKeyColumnName getJunctionTableName
     getJunctionColumnNames).
Local Abbreviation updated :=
  (updatedRelation getForeignKeyColumnName getJunctionTableName
     getJunctionColumnNames).
Local Abbreviation column := (ownColumn getForeignKeyColumnName).
Local Abbreviation columnDrop := (ownColumnDrop getForeignKeyColumnName).
Local Abbreviation inverseDrop := (inverseColumnDrop getForeignKeyColumnName).
Local Abbreviation inverseCreate := (inverseColumn getForeignKeyColumnName).
Local Abbreviation junction :=
  (junctionFor getJunctionTableName getJunctionColumnNames).

(** The branch each transition takes. *)

Lemma typeChange_junction_to_own (oldRel newRel : Relation.t) (tableName : string)
    (d : Diff.t) :
  Relation.type oldRel = many_to_many ->
  Relation.type newRel = many_to_one \/ Relation.type newRel = one_to_one ->
  typeChange oldRel newRel tableName d =
  (pushJunctionDrop
     (JunctionDrop.mk (Relation.junctionTableName oldRel)
        "Relation type changed from M2M to M2O/O2O") ;;
   pushColumnsCreate (column newRel)) (withContainers d).
Proof.
  intros Hold Hnew. unfold handleRelationTypeChange.
  rewrite typeChange_head. destruct Hnew as [Hnew|Hnew];
    rewrite Hold, Hnew; reflexivity.
Qed.

Lemma typeChange_inverse_to_junction (oldRel newRel : Relation.t)
    (tableName : string) (d : Diff.t) :
  Relation.type oldRel = one_to_many ->
  Relation.type newRel = many_to_many ->
  typeChange oldRel newRel tableName d =
  match inverseOf oldRel with
  | None => throw (Error (missingInverseMessage (Relation.propertyName oldRel)))
  | Some inverse =>
      pushCrossTableOperation (inverseDrop oldRel inverse) ;;
      pushJunctionCreate (junction tableName newRel)
  end (withContainers d).
Proof.
  intros Hold Hnew. unfold handleRelationTypeChange.
  rewrite typeChange_head, Hold, Hnew. reflexivity.
Qed.

Lemma typeChange_junction_to_inverse (oldRel newRel : Relation.t)
    (tableName : string) (d : Diff.t) :
  Relation.type oldRel = many_to_many ->
  Relation.type newRel = one_to_many ->
  typeChange oldRel newRel tableName d =
  (pushJunctionDrop
     (JunctionDrop.mk (Relation.junctionTableName oldRel)
        "Relation type changed from M2M to O2M") ;;
   match inverseOf newRel with
   | None => throw (Error (missingInverseMessage (Relation.propertyName newRel)))
   | Some inverse =>
       pushCrossTableOperation
         (CrossTableOp.createColumn (Relation.targetTableName newRel)
            (inverseCreate tableName newRel inverse))
   end) (withContainers d).
Proof.
  intros Hold Hnew. unfold handleRelationTypeChange.
  rewrite typeChange_head, Hold, Hnew. reflexivity.
Qed.

Lemma typeChange_own_to_inverse (oldRel newRel : Relation.t) (tableName : string)
    (d : Diff.t) :
  Relation.type oldRel = many_to_one \/ Relation.type oldRel = one_to_one ->
  Relation.type newRel = one_to_many ->
  typeChange oldRel newRel tableName d =
  (pushColumnsDelete (columnDrop oldRel) ;;
   match inverseOf newRel with
   | None => throw (Error (missingInverseMessage (Relation.propertyName newRel)))
   | Some inverse =>
       pushCrossTableOperation
         (CrossTableOp.createColumn (Relation.targetTableName newRel)
            (inverseCreate tableName newRel inverse))
   end) (withContainers d).
Proof.
  intros Hold Hnew. unfold handleRelationTypeChange.
  rewrite typeChange_head. destruct Hold as [Hold|Hold];
    rewrite Hold, Hnew; reflexivity.
Qed.

Lemma typeChange_inverse_to_own (oldRel newRel : Relation.t) (tableName : string)
    (d : Diff.t) :
  Relation.type oldRel = one_to_many ->
  Relation.type newRel = many_to_one \/ Relation.type newRel = one_to_one ->
  typeChange oldRel newRel tableName d =
  match inverseOf oldRel with
  | None => throw (Error (missingInverseMessage (Relation.propertyName oldRel)))
  | Some inverse =>
      pushCrossTableOperation (inverseDrop oldRel inverse) ;;
      pushColumnsCreate (column newRel)
  end (withContainers d).
Proof.
  intros Hold Hnew. unfold handleRelationTypeChange.
  rewrite typeChange_head. destruct Hnew as [Hnew|Hnew];
    rewrite Hold, Hnew; reflexivity.
Qed.

(** Runs the pushes of a branch on a diff taken apart. *)
Ltac run_branch d :=
  destruct d as [[[[?|] [?|]]|] [?|] [?|]]; cbn in *; try discriminate;
  eexists; (split; [reflexivity|]); try reflexivity.

(** X9. A matched pair whose two types are equal, whatever else differs
    between the two relations, and a new relation that has no old
    counterpart make the update planner do nothing: the diff is exactly as
    it was, its containers are not even made, and nothing is thrown. *)
Theorem X9_update_without_type_change (oldRelMap : JsMap.t Relation.t)
    (tableName : string) (relId : Z) (newRel : Relation.t) (d : Diff.t) :
  (forall oldRel,
     JsMap.get relId oldRelMap = Some oldRel ->
     Relation.type oldRel = Relation.type newRel) ->
  updated oldRelMap tableName (relId, newRel) d = Ok d.
Proof.
  intros Hsame. rewrite updatedRelation_by_type. cbn [fst snd].
  destruct (JsMap.get relId oldRelMap) as [oldRel|]; [|reflexivity].
  rewrite (Hsame oldRel eq_refl), String.eqb_refl. reflexivity.
Qed.

(** X10. A change from many-to-many to many-to-one or one-to-one, on a diff
    that has [columns.create], appends two entries and nothing else: to
    [junctionTables.drop] the old relation's [junctionTableName] with the
    reason "Relation type changed from M2M to M2O/O2O", and to
    [columns.create] the new relation's foreign-key column. *)
Theorem X10_many_to_many_to_own_foreign_key (oldRel newRel : Relation.t)
    (tableName : string) (d : Diff.t) :
  Relation.type oldRel = many_to_many ->
  Relation.type newRel = many_to_one \/ Relation.type newRel = one_to_one ->
  hasColumnsCreate d = true ->
  exists d',
    typeChange oldRel newRel tableName d = Ok d' /\
    operationsOf d' =
      (columnsCreateOf d ++
         [ColumnDef.mk
            (orElse (Relation.foreignKeyColumn newRel)
               (getForeignKeyColumnName (Relation.propertyName newRel)))
            "int"
            (match Relation.isNullable newRel with Some b => b | None => true end)
            true (Relation.targetTableName newRel) "id"],
       columnsDeleteOf d, crossTableOf d, junctionCreateOf d,
       junctionDropOf d ++
         [JunctionDrop.mk (Relation.junctionTableName oldRel)
            "Relation type changed from M2M to M2O/O2O"],
       junctionUpdateOf d).
Proof.
  intros Hold Hnew Hcre.
  rewrite (typeChange_junction_to_own _ _ _ _ Hold Hnew).
  unfold ownColumn. destruct (Relation.isNullable newRel); run_branch d.
Qed.

(** X11. A change from one-to-many to many-to-many, the old relation naming
    its inverse side, appends two entries and nothing else, whatever the
    diff: to [crossTableOperations] the [dropColumn] of the old foreign key
    on the old target table, and to [junctionTables.create] the junction
    table named from (table, new [propertyName], new target). *)
Theorem X11_one_to_many_to_many_to_many (oldRel newRel : Relation.t)
    (tableName : string) (inverse : string) (d : Diff.t) :
  Relation.type oldRel = one_to_many ->
  Relation.type newRel = many_to_many ->
  Relation.inversePropertyName oldRel = Some inverse ->
  truthyString inverse = true ->
  let names :=
    getJunctionColumnNames tableName (Relation.propertyName newRel)
      (Relation.targetTableName newRel) in
  exists d',
    typeChange oldRel newRel tableName d = Ok d' /\
    operationsOf d' =
      (columnsCreateOf d, columnsDeleteOf d,
       crossTableOf d ++
         [CrossTableOp.dropColumn (Relation.targetTableName oldRel)
            (orElse (Relation.foreignKeyColumn oldRel)
               (getForeignKeyColumnName inverse))
            true],
       junctionCreateOf d ++
         [JunctionCreate.mk
            (getJunctionTableName tableName (Relation.propertyName newRel)
               (Relation.targetTableName newRel))
            tableName (Relation.targetTableName newRel) (fst names) (snd names)],
       junctionDropOf d, junctionUpdateOf d).
Proof.
  intros Hold Hnew Hinv Htruthy names.
  rewrite (typeChange_inverse_to_junction _ _ _ _ Hold Hnew),
    (inverseOf_present _ _ Hinv Htruthy).
  destruct d as [c [x|] [j|]]; eexists; split; reflexivity.
Qed.

(** X12. A change from many-to-many to one-to-many first appends the drop
    of the old junction table, with the reason "Relation type changed from
    M2M to O2M".  If the new relation names its inverse side, the
    [createColumn] of the foreign key on the new target table is appended
    too, and nothing else.  If it does not, the resolver throws the
    missing-[inversePropertyName] error for the new relation, and the diff
    it leaves holds the drop of the junction table already. *)
Theorem X12_many_to_many_to_one_to_many (oldRel newRel : Relation.t)
    (tableName : string) (d : Diff.t) :
  Relation.type oldRel = many_to_many ->
  Relation.type newRel = one_to_many ->
  let dropped :=
    junctionDropOf d ++
      [JunctionDrop.mk (Relation.junctionTableName oldRel)
         "Relation type changed from M2M to O2M"] in
  (forall inverse,
     Relation.inversePropertyName newRel = Some inverse ->
     truthyString inverse = true ->
     exists d',
       typeChange oldRel newRel tableName d = Ok d' /\
       operationsOf d' =
         (columnsCreateOf d, columnsDeleteOf d,
          crossTableOf d ++
            [CrossTableOp.createColumn (Relation.targetTableName newRel)
               (ColumnDef.mk
                  (orElse (Relation.foreignKeyColumn newRel)
                     (getForeignKeyColumnName inverse))
                  "int" true true (Str tableName) "id")],
          junctionCreateOf d, dropped, junctionUpdateOf d)) /\
  (present (Relation.inversePropertyName newRel) = false ->
   exists d',
     typeChange oldRel newRel tableName d =
       Throw (Error (missingInverseMessage (Relation.propertyName newRel))) d' /\
     operationsOf d' =
       (columnsCreateOf d, columnsDeleteOf d, crossTableOf d,
        junctionCreateOf d, dropped, junctionUpdateOf d)).
Proof.
  intros Hold Hnew dropped. split.
  - intros inverse Hinv Htruthy.
    rewrite (typeChange_junction_to_inverse _ _ _ _ Hold Hnew),
      (inverseOf_present _ _ Hinv Htruthy).
    destruct d as [c [x|] [j|]]; eexists; split; reflexivity.
  - intros Hinv.
    rewrite (typeChange_junction_to_inverse _ _ _ _ Hold Hnew),
      (inverseOf_missing _ Hinv).
    destruct d as [c [x|] [j|]]; eexists; split; reflexivity.
Qed.

(** X13. A change from many-to-one or one-to-one to one-to-many, on a diff
    that has [columns.delete], first appends the drop of the old
    foreign-key column.  If the new relation names its inverse side, the
    [createColumn] of the foreign key on the new target table is appended
    too, and nothing else.  If it does not, the resolver throws the
    missing-[inversePropertyName] error for the new relation, and the diff
    it leaves holds the drop of the old column already. *)
Theorem X13_own_foreign_key_to_one_to_many (oldRel newRel : Relation.t)
    (tableName : string) (d : Diff.t) :
  Relation.type oldRel = many_to_one \/ Relation.type oldRel = one_to_one ->
  Relation.type newRel = one_to_many ->
  hasColumnsDelete d = true ->
  let dropped :=
    columnsDeleteOf d ++
      [ColumnDrop.mk
         (orElse (Relation.foreignKeyColumn oldRel)
            (getForeignKeyColumnName (Relation.propertyName oldRel)))
         true] in
  (forall inverse,
     Relation.inversePropertyName newRel = Some inverse ->
     truthyString inverse = true ->
     exists d',
       typeChange oldRel newRel tableName d = Ok d' /\
       operationsOf d' =
         (columnsCreateOf d, dropped,
          crossTableOf d ++
            [CrossTableOp.createColumn (Relation.targetTableName newRel)
               (ColumnDef.mk
                  (orElse (Relation.foreignKeyColumn newRel)
                     (getForeignKeyColumnName inverse))
                  "int" true true (Str tableName) "id")],
          junctionCreateOf d, junctionDropOf d, junctionUpdateOf d)) /\
  (present (Relation.inversePropertyName newRel) = false ->
   exists d',
     typeChange oldRel newRel tableName d =
       Throw (Error (missingInverseMessage (Relation.propertyName newRel))) d' /\
     operationsOf d' =
       (columnsCreateOf d, dropped, crossTableOf d,
        junctionCreateOf d, junctionDropOf d, junctionUpdateOf d)).
Proof.
  intros Hold Hnew Hdel dropped. split.
  - intros inverse Hinv Htruthy.
    rewrite (typeChange_own_to_inverse _ _ _ _ Hold Hnew),
      (inverseOf_present _ _ Hinv Htruthy).
    run_branch d.
  - intros Hinv.
    rewrite (typeChange_own_to_inverse _ _ _ _ Hold Hnew),
      (inverseOf_missing _ Hinv).
    run_branch d.
Qed.

(** X14. A change from one-to-many to many-to-one or one-to-one.  If the
    old relation names its inverse side and the diff has [columns.create],
    two entries are appended and nothing else: the [dropColumn] of the old
    foreign key on the old target table, and the new relation's own
    foreign-key column.  If the old relation does not name its inverse
    side, the resolver throws the missing-[inversePropertyName] error for
    the old relation and no operation is appended, whatever the diff. *)
Theorem X14_one_to_many_to_own_foreign_key (oldRel newRel : Relation.t)
    (tableName : string) (d : Diff.t) :
  Relation.type oldRel = one_to_many ->
  Relation.type newRel = many_to_one \/ Relation.type newRel = one_to_one ->
  (forall inverse,
     Relation.inversePropertyName oldRel = Some inverse ->
     truthyString inverse = true ->
     hasColumnsCreate d = true ->
     exists d',
       typeChange oldRel newRel tableName d = Ok d' /\
       operationsOf d' =
         (columnsCreateOf d ++
            [ColumnDef.mk
               (orElse (Relation.foreignKeyColumn newRel)
                  (getForeignKeyColumnName (Relation.propertyName newRel)))
               "int"
               (match Relation.isNullable newRel with Some b => b | None => true end)
               true (Relation.targetTableName newRel) "id"],
          columnsDeleteOf d,
          crossTableOf d ++
            [CrossTableOp.dropColumn (Relation.targetTableName oldRel)
               (orElse (Relation.foreignKeyColumn oldRel)
                  (getForeignKeyColumnName inverse))
               true],
          junctionCreateOf d, junctionDropOf d, junctionUpdateOf d)) /\
  (present (Relation.inversePropertyName oldRel) = false ->
   typeChange oldRel newRel tableName d =
     Throw (Error (missingInverseMessage (Relation.propertyName oldRel)))
       (withContainers d) /\
   operationsOf (withContainers d) = operationsOf d).
Proof.
  intros Hold Hnew. split.
  - intros inverse Hinv Htruthy Hcre.
    rewrite (typeChange_inverse_to_own _ _ _ _ Hold Hnew),
      (inverseOf_present _ _ Hinv Htruthy).
    unfold ownColumn. destruct (Relation.isNullable newRel); run_branch d.
  - intros Hinv.
    rewrite (typeChange_inverse_to_own _ _ _ _ Hold Hnew),
      (inverseOf_missing _ Hinv).
    split; [reflexivity | apply withContainers_operations].
Qed.

(** X15. A change from one-to-one to many-to-many does what the change from
    many-to-one does: on a diff that has [columns.delete], the old
    foreign-key column is appended to [columns.delete], the new junction
    table to [junctionTables.create], and nothing else. *)
Theorem X15_one_to_one_to_many_to_many (oldRel newRel : Relation.t)
    (tableName : string) (d : Diff.t) :
  Relation.type oldRel = one_to_one ->
  Relation.type newRel = many_to_many ->
  hasColumnsDelete d = true ->
  let names :=
    getJunctionColumnNames tableName (Relation.propertyName newRel)
      (Relation.targetTableName newRel) in
  exists d',
    typeChange oldRel newRel tableName d = Ok d' /\
    operationsOf d' =
      (columnsCreateOf d,
       columnsDeleteOf d ++
         [ColumnDrop.mk
            (orElse (Relation.foreignKeyColumn oldRel)
               (getForeignKeyColumnName (Relation.propertyName oldRel)))
            true],
       crossTableOf d,
       junctionCreateOf d ++
         [JunctionCreate.mk
            (getJunctionTableName tableName (Relation.propertyName newRel)
               (Relation.targetTableName newRel))
            tableName (Relation.targetTableName newRel) (fst names) (snd names)],
       junctionDropOf d, junctionUpdateOf d).
Proof.
  intros Hold Hnew Hdel names.
  rewrite (typeChange_own_to_junction _ _ _ _ _ _ _ (or_intror Hold) Hnew).
  run_branch d.
Qed.

(** X16. Called on two relations of equal type, or with a type that is none
    of the four on either side, the resolver appends nothing and throws
    nothing: it only makes the two containers. *)
Theorem X16_no_transition (oldRel newRel : Relation.t) (tableName : string)
    (d : Diff.t) :
  Relation.type oldRel = Relation.type newRel \/
  knownType (Relation.type oldRel) = false \/
  knownType (Relation.type newRel) = false ->
  typeChange oldRel newRel tableName d = Ok (withContainers d) /\
  operationsOf (withContainers d) = operationsOf d.
Proof.
  intros H. split; [|apply withContainers_operations].
  unfold handleRelationTypeChange. rewrite typeChange_head. cbv zeta.
  destruct H as [H|[H|H]].
  - rewrite H.
    destruct (String.eqb_spec (Relation.type newRel) many_to_one) as [E1|_],
      (String.eqb_spec (Relation.type newRel) one_to_one) as [E2|_],
      (String.eqb_spec (Relation.type newRel) one_to_many) as [E3|_],
      (String.eqb_spec (Relation.type newRel) many_to_many) as [E4|_];
      try reflexivity;
      try (rewrite E1 in *); try (rewrite E2 in *); try (rewrite E3 in *);
      discriminate.
  - destruct (knownType_false _ H) as (H1 & H2 & H3 & H4).
    rewrite H1, H2, H3, H4. cbn [orb andb].
    repeat match goal with
           | |- (if ?c then _ else _) _ = _ => destruct c
           end; reflexivity.
  - destruct (knownType_false _ H) as (H1 & H2 & H3 & H4).
    rewrite H1, H2, H3, H4. rewrite ?andb_false_r. cbn [orb andb].
    reflexivity.
Qed.

End Transitions.

(** ** Maps built from lists that may repeat an id *)

Module JsMapLaws.
Section Laws.
Context {V : Type}.
Implicit Types (m : JsMap.t V) (k : Z) (v : V).

Lemma get_set k k' v m :
  JsMap.get k' (JsMap.set k v m) = if Z.eqb k k' then Some v else JsMap.get k' m.
Proof.
  induction m as [|[k0 v0] m IH]; cbn; [reflexivity|].
  destruct (Z.eqb_spec k0 k) as [->|Hne]; cbn.
  - destruct (Z.eqb k k'); reflexivity.
  - rewrite IH. destruct (Z.eqb_spec k0 k') as [->|Hne'].
    + destruct (Z.eqb_spec k k'); [congruence | reflexivity].
    + reflexivity.
Qed.

Lemma in_keys_set k k' v m :
  In k' (JsMap.keys (JsMap.set k v m)) <-> k' = k \/ In k' (JsMap.keys m).
Proof.
  rewrite <- !JsMapFacts.has_keys. unfold JsMap.has. rewrite get_set.
  destruct (Z.eqb_spec k k') as [->|Hne].
  - split; [left; reflexivity | reflexivity].
  - destruct (JsMap.get k' m);
      (split; [auto | intros [Heq|H]; [congruence | exact H]]).
Qed.

Lemma in_set k v m (e : Z * V) :
  In e (JsMap.set k v m) -> e = (k, v) \/ In e m.
Proof.
  induction m as [|[k0 v0] m IH]; cbn.
  - intros [H|[]]. left. symmetry. exact H.
  - destruct (Z.eqb_spec k0 k) as [->|Hne]; cbn.
    + intros [H|H]; [left; symmetry; exact H | right; right; exact H].
    + intros [H|H]; [right; left; exact H|].
      destruct (IH H) as [H'|H']; [left; exact H' | right; right; exact H'].
Qed.

Lemma keys_set_NoDup k v m :
  List.NoDup (JsMap.keys m) -> List.NoDup (JsMap.keys (JsMap.set k v m)).
Proof.
  induction m as [|[k0 v0] m IH]; cbn.
  - intros _. repeat constructor. intros [].
  - intros Hnd. apply List.NoDup_cons_iff in Hnd. destruct Hnd as [Hout Hnd].
    destruct (Z.eqb_spec k0 k) as [->|Hne]; cbn.
    + constructor; assumption.
    + constructor; [|apply IH, Hnd].
      fold (JsMap.keys (JsMap.set k v m)). rewrite in_keys_set.
      intros [Heq|Hin]; [congruence | exact (Hout Hin)].
Qed.

Lemma get_in k v m : JsMap.get k m = Some v -> In (k, v) m.
Proof.
  induction m as [|[k0 v0] m IH]; cbn; [discriminate|].
  destruct (Z.eqb_spec k0 k) as [->|Hne].
  - intros [= ->]. left. reflexivity.
  - intros H. right. apply IH, H.
Qed.

(** In a map each key has one entry, the one [get] returns. *)
Lemma in_get k v m : List.NoDup (JsMap.keys m) -> In (k, v) m -> JsMap.get k m = Some v.
Proof.
  induction m as [|[k0 v0] m IH]; cbn; [intros _ []|].
  intros Hnd. apply List.NoDup_cons_iff in Hnd. destruct Hnd as [Hout Hnd].
  intros [[= -> ->]|Hin].
  - rewrite Z.eqb_refl. reflexivity.
  - destruct (Z.eqb_spec k0 k) as [->|Hne]; [|apply IH; assumption].
    exfalso. apply Hout. unfold JsMap.keys.
    change k with (fst (k, v)). apply in_map, Hin.
Qed.

Lemma fold_keys_NoDup (entries : list (Z * V)) m :
  List.NoDup (JsMap.keys m) ->
  List.NoDup
    (JsMap.keys (fold_left (fun m e => JsMap.set (fst e) (snd e) m) entries m)).
Proof.
  revert m. induction entries as [|e es IH]; intros m Hnd; cbn [fold_left];
    [exact Hnd|].
  apply IH, keys_set_NoDup, Hnd.
Qed.

Lemma fold_in_keys (entries : list (Z * V)) k m :
  In k (JsMap.keys (fold_left (fun m e => JsMap.set (fst e) (snd e) m) entries m)) <->
  In k (List.map fst entries) \/ In k (JsMap.keys m).
Proof.
  revert m. induction entries as [|e es IH]; intros m; cbn [fold_left List.map];
    [cbn; tauto|].
  rewrite IH, in_keys_set. cbn [In]. intuition congruence.
Qed.

Lemma fold_in (entries : list (Z * V)) (e : Z * V) m :
  In e (fold_left (fun m e => JsMap.set (fst e) (snd e) m) entries m) ->
  In e entries \/ In e m.
Proof.
  revert m. induction entries as [|e0 es IH]; intros m; cbn; [tauto|].
  intros H. destruct (IH _ H) as [H'|H']; [tauto|].
  destruct (in_set _ _ _ _ H') as [->|H'']; [|tauto].
  left. left. destruct e0; reflexivity.
Qed.

(** The value under a key is that of the last entry given for it. *)
Lemma fold_get (entries : list (Z * V)) k m :
  JsMap.get k (fold_left (fun m e => JsMap.set (fst e) (snd e) m) entries m) =
  match List.find (fun e => Z.eqb (fst e) k) (rev entries) with
  | Some e => Some (snd e)
  | None => JsMap.get k m
  end.
Proof.
  revert m. induction entries as [|e es IH]; intros m; cbn; [reflexivity|].
  rewrite IH, get_set.
  assert (Hfind : forall (l : list (Z * V)),
            List.find (fun e => Z.eqb (fst e) k) (l ++ [e]) =
            match List.find (fun e => Z.eqb (fst e) k) l with
            | Some x => Some x
            | None => if Z.eqb (fst e) k then Some e else None
            end).
  { intros l. induction l as [|x l IHl]; cbn; [reflexivity|].
    destruct (Z.eqb (fst x) k); [reflexivity | exact IHl]. }
  rewrite Hfind. destruct (List.find _ (rev es)); [reflexivity|].
  destruct (Z.eqb (fst e) k); reflexivity.
Qed.
Lemma ofEntries_keys_NoDup (entries : list (Z * V)) :
  List.NoDup (JsMap.keys (JsMap.ofEntries entries)).
Proof. apply fold_keys_NoDup. constructor. Qed.

Lemma ofEntries_has (entries : list (Z * V)) k :
  JsMap.has k (JsMap.ofEntries entries) = true <-> In k (List.map fst entries).
Proof.
  rewrite JsMapFacts.has_keys. unfold JsMap.ofEntries. rewrite fold_in_keys.
  cbn. tauto.
Qed.

Lemma ofEntries_in (entries : list (Z * V)) (e : Z * V) :
  In e (JsMap.ofEntries entries) -> In e entries.
Proof. intros H. destruct (fold_in _ _ _ H) as [H'|[]]. exact H'. Qed.

End Laws.
End JsMapLaws.

Lemma relMap_has (relations : list Relation.t) (i : Z) :
  JsMap.has i (relMap relations) = true <-> In i (List.map Relation.id relations).
Proof.
  unfold relMap. rewrite JsMapLaws.ofEntries_has, List.map_map. reflexivity.
Qed.

Lemma relMap_in (relations : list Relation.t) (k : Z) (rel : Relation.t) :
  In (k, rel) (relMap relations) -> In rel relations /\ Relation.id rel = k.
Proof.
  intros H. apply JsMapLaws.ofEntries_in, in_map_iff in H.
  destruct H as (r & [= <- <-] & Hin). split; [exact Hin | reflexivity].
Qed.

Lemma relMap_get_in (relations : list Relation.t) (k : Z) (rel : Relation.t) :
  JsMap.get k (relMap relations) = Some rel ->
  In rel relations /\ Relation.id rel = k.
Proof. intros H. apply relMap_in, JsMapLaws.get_in, H. Qed.

Lemma forOf_all_skip {A : Type} (xs : list A) (body : A -> Stmt) :
  (forall x, In x xs -> forall d, body x d = Ok d) ->
  forall d, forOf xs body d = Ok d.
Proof.
  induction xs as [|x xs IH]; intros Hskip d; [reflexivity|].
  cbn [forOf]. unfold seq. rewrite (Hskip x (or_introl eq_refl)).
  apply IH. intros y Hy. apply Hskip. right. exact Hy.
Qed.

(** ** What the whole analysis keeps *)

Lemma extends_refl (d : Diff.t) : extends d d.
Proof. repeat split; reflexivity. Qed.

Ltac crush_extends :=
  unfold hoare;
  intros;
  repeat match goal with
         | d : Diff.t |- _ => destruct d as [[[[?|] [?|]]|] [?|] [?|]]
         end;
  cbn in *;
  repeat match goal with
         | H : _ /\ _ |- _ => destruct H
         end;
  repeat split; try assumption;
  try (apply prefix_app_r; assumption);
  try match goal with
      | H : ?a `prefix_of` [] |- ?a `prefix_of` [?e] =>
          exact (prefix_app_r a [] [e] H)
      end.

Lemma extends_plannerRespects (d0 : Diff.t) :
  plannerRespects (extends d0) (extends d0) (fun _ d => extends d0 d).
Proof.
  unfold extends.
  generalize (columnsCreateOf d0) (columnsDeleteOf d0) (crossTableOf d0)
    (junctionCreateOf d0) (junctionDropOf d0) (junctionUpdateOf d0).
  clear d0. intros.
  split; [split|..]; crush_extends.
Qed.

Lemma junctionUpdate_plannerRespects (u : list JunctionUpdate) :
  plannerRespects (fun d => junctionUpdateOf d = u) (fun d => junctionUpdateOf d = u)
    (fun _ d => junctionUpdateOf d = u).
Proof. split; [split|..]; crush_hoare. Qed.

(** Conditions kept by the deletion planner alone, and by the creation
    planner alone. *)
Section OnePlanner.

Variable getForeignKeyColumnName : string -> string.
Variable getJunctionTableName : string -> string -> JsValue -> string.
Variable getJunctionColumnNames : string -> string -> JsValue -> string * string.

Variable I : Diff.t -> Prop.
Variable E : JsError -> Diff.t -> Prop.

Lemma handleDeletedRelations_hoare (oldRelations : list Relation.t) (ids : list Z) :
  (forall e, hoare I (pushColumnsDelete e) I E) ->
  (forall e, hoare I (ensureCrossTableOperations ;; pushCrossTableOperation e) I E) ->
  (forall e, hoare I (ensureJunctionTables ;; pushJunctionDrop e) I E) ->
  hoare I (handleDeletedRelations getForeignKeyColumnName oldRelations ids) I E.
Proof.
  intros Hcol Hcross Hjun. apply hoare_forOf. intros relId.
  unfold deletedRelation.
  repeat match goal with
         | |- hoare _ (if ?c then _ else _) _ _ => destruct c
         | |- hoare _ (match ?o with Some _ => _ | None => _ end) _ _ => destruct o
         | |- hoare _ skip _ _ => apply hoare_skip
         | |- hoare _ (pushColumnsDelete _) _ _ => apply Hcol
         | |- hoare _ (_ ;; pushCrossTableOperation _) _ _ => apply Hcross
         | |- hoare _ (_ ;; pushJunctionDrop _) _ _ => apply Hjun
         end.
Qed.

Lemma handleCreatedRelations_hoare (newRelations : list Relation.t) (ids : list Z)
    (tableName : string) :
  (forall e, hoare I (pushColumnsCreate e) I E) ->
  (forall e, hoare I (ensureCrossTableOperations ;; pushCrossTableOperation e) I E) ->
  (forall e, hoare I (ensureJunctionTables ;; pushJunctionCreate e) I E) ->
  hoare I
    (handleCreatedRelations getForeignKeyColumnName getJunctionTableName
       getJunctionColumnNames newRelations ids tableName)
    I E.
Proof.
  intros Hcol Hcross Hjun. apply hoare_forOf. intros relId.
  unfold createdRelation.
  repeat match goal with
         | |- hoare _ (if ?c then _ else _) _ _ => destruct c
         | |- hoare _ (match ?o with Some _ => _ | None => _ end) _ _ => destruct o
         | |- hoare _ skip _ _ => apply hoare_skip
         | |- hoare _ (pushColumnsCreate _) _ _ => apply Hcol
         | |- hoare _ (_ ;; pushCrossTableOperation _) _ _ => apply Hcross
         | |- hoare _ (_ ;; pushJunctionCreate _) _ _ => apply Hjun
         end.
Qed.

End OnePlanner.

(** What the pushes of the deletion planner keep, and those of the
    creation planner. *)
Lemma deletionFrame (c : list ColumnDef.t) (j : list JunctionCreate.t)
    (sh : option (bool * bool)) :
  let I := fun d =>
    columnsCreateOf d = c /\ junctionCreateOf d = j /\ columnsShape d = sh in
  (forall e, hoare I (pushColumnsDelete e) I (fun _ => I)) /\
  (forall e,
     hoare I (ensureCrossTableOperations ;; pushCrossTableOperation e) I (fun _ => I)) /\
  (forall e, hoare I (ensureJunctionTables ;; pushJunctionDrop e) I (fun _ => I)).
Proof. cbv zeta. repeat split; crush_hoare. Qed.

Lemma creationFrame (c : list ColumnDrop.t) (j : list JunctionDrop.t)
    (sh : option (bool * bool)) :
  let I := fun d =>
    columnsDeleteOf d = c /\ junctionDropOf d = j /\ columnsShape d = sh in
  (forall e, hoare I (pushColumnsCreate e) I (fun _ => I)) /\
  (forall e,
     hoare I (ensureCrossTableOperations ;; pushCrossTableOperation e) I (fun _ => I)) /\
  (forall e, hoare I (ensureJunctionTables ;; pushJunctionCreate e) I (fun _ => I)).
Proof. cbv zeta. repeat split; crush_hoare. Qed.

Section WholeAnalysis.

Variable getForeignKeyColumnName : string -> string.
Variable getJunctionTableName : string -> string -> JsValue -> string.
Variable getJunctionColumnNames : string -> string -> JsValue -> string * string.

Local Abbreviation handleDeleted := (handleDeletedRelations getForeignKeyColumnName).
Local Abbreviation handleCreated :=
  (handleCreatedRelations getForeignKeyColumnName getJunctionTableName
     getJunctionColumnNames).
Local Abbreviation analyze :=
  (analyzeRelationChanges getForeignKeyColumnName getJunctionTableName
     getJunctionColumnNames).

(** X17. The analysis only appends.  However it ends, normally or by
    throwing, each of the six operation lists of the diff it leaves starts
    with the list the diff had: no entry is removed, changed or
    reordered. *)
Theorem X17_analysis_only_appends (knex : Knex)
    (oldRelations newRelations : list Relation.t) (tableName : string)
    (d : Diff.t) :
  let d' := diffOf (analyze knex oldRelations newRelations tableName d) in
  columnsCreateOf d `prefix_of` columnsCreateOf d' /\
  columnsDeleteOf d `prefix_of` columnsDeleteOf d' /\
  crossTableOf d `prefix_of` crossTableOf d' /\
  junctionCreateOf d `prefix_of` junctionCreateOf d' /\
  junctionDropOf d `prefix_of` junctionDropOf d' /\
  junctionUpdateOf d `prefix_of` junctionUpdateOf d'.
Proof.
  pose proof (analyzeRelationChanges_respects getForeignKeyColumnName
                getJunctionTableName getJunctionColumnNames _ _ _ knex
                oldRelations newRelations tableName
                (extends_plannerRespects d) d (extends_refl d)) as H.
  cbv zeta. destruct (analyze knex oldRelations newRelations tableName d); exact H.
Qed.

(** X18. The analysis never plans a junction-table update: however it ends,
    [junctionTables.update] holds what the caller put there, and nothing
    when the analysis made [junctionTables] itself. *)
Theorem X18_no_junction_update (knex : Knex)
    (oldRelations newRelations : list Relation.t) (tableName : string)
    (d : Diff.t) :
  junctionUpdateOf (diffOf (analyze knex oldRelations newRelations tableName d)) =
  junctionUpdateOf d.
Proof.
  pose proof (analyzeRelationChanges_respects getForeignKeyColumnName
                getJunctionTableName getJunctionColumnNames _ _ _ knex
                oldRelations newRelations tableName
                (junctionUpdate_plannerRespects (junctionUpdateOf d)) d eq_refl) as H.
  destruct (analyze knex oldRelations newRelations tableName d); exact H.
Qed.

(** X19. The deletion planner only drops: however it ends, [columns.create]
    and [junctionTables.create] hold what they held, and the presence of the
    two column arrays is unchanged. *)
Theorem X19_deletion_planner_creates_nothing (oldRelations : list Relation.t)
    (ids : list Z) (d : Diff.t) :
  let d' := diffOf (handleDeleted oldRelations ids d) in
  columnsCreateOf d' = columnsCreateOf d /\
  junctionCreateOf d' = junctionCreateOf d /\
  columnsShape d' = columnsShape d.
Proof.
  destruct (deletionFrame (columnsCreateOf d) (junctionCreateOf d) (columnsShape d))
    as (Hcol & Hcross & Hjun).
  pose proof (handleDeletedRelations_hoare getForeignKeyColumnName _ _
                oldRelations ids Hcol Hcross Hjun d
                (conj eq_refl (conj eq_refl eq_refl))) as H.
  cbv zeta. destruct (handleDeleted oldRelations ids d); exact H.
Qed.

(** X20. The creation planner only creates: however it ends,
    [columns.delete] and [junctionTables.drop] hold what they held, and the
    presence of the two column arrays is unchanged. *)
Theorem X20_creation_planner_drops_nothing (newRelations : list Relation.t)
    (ids : list Z) (tableName : string) (d : Diff.t) :
  let d' := diffOf (handleCreated newRelations ids tableName d) in
  columnsDeleteOf d' = columnsDeleteOf d /\
  junctionDropOf d' = junctionDropOf d /\
  columnsShape d' = columnsShape d.
Proof.
  destruct (creationFrame (columnsDeleteOf d) (junctionDropOf d) (columnsShape d))
    as (Hcol & Hcross & Hjun).
  pose proof (handleCreatedRelations_hoare getForeignKeyColumnName
                getJunctionTableName getJunctionColumnNames _ _
                newRelations ids tableName Hcol Hcross Hjun d
                (conj eq_refl (conj eq_refl eq_refl))) as H.
  cbv zeta. destruct (handleCreated newRelations ids tableName d); exact H.
Qed.

End WholeAnalysis.

(** ** When the analysis completes *)

Lemma hoare_forOf_in {A : Type} (I : Diff.t -> Prop) (E : JsError -> Diff.t -> Prop)
    (xs : list A) (body : A -> Stmt) :
  (forall x, In x xs -> hoare I (body x) I E) -> hoare I (forOf xs body) I E.
Proof.
  induction xs as [|x xs IH]; intros Hbody.
  - apply hoare_skip.
  - cbn [forOf]. eapply hoare_seq.
    + apply Hbody. left. reflexivity.
    + apply IH. intros y Hy. apply Hbody. right. exact Hy.
Qed.

(** With the two column arrays and the two containers there, no push
    throws. *)
Lemma pushes_complete :
  let J := fun d => columnsReady d /\ initialised d in
  let never := fun (_ : JsError) (_ : Diff.t) => False in
  (forall e, hoare J (pushColumnsCreate e) J never) /\
  (forall e, hoare J (pushColumnsDelete e) J never) /\
  (forall e, hoare J (pushCrossTableOperation e) J never) /\
  (forall e, hoare J (pushJunctionCreate e) J never) /\
  (forall e, hoare J (pushJunctionDrop e) J never).
Proof. cbv zeta. repeat split; crush_hoare. Qed.

(** With the two column arrays there, no push of the deletion and creation
    planners throws. *)
Lemma planner_pushes_complete :
  let never := fun (_ : JsError) (_ : Diff.t) => False in
  (forall e, hoare columnsReady (pushColumnsCreate e) columnsReady never) /\
  (forall e, hoare columnsReady (pushColumnsDelete e) columnsReady never) /\
  (forall e,
     hoare columnsReady (ensureCrossTableOperations ;; pushCrossTableOperation e)
       columnsReady never) /\
  (forall e,
     hoare columnsReady (ensureJunctionTables ;; pushJunctionCreate e)
       columnsReady never) /\
  (forall e,
     hoare columnsReady (ensureJunctionTables ;; pushJunctionDrop e)
       columnsReady never).
Proof. cbv zeta. repeat split; crush_hoare. Qed.

Lemma inverseOf_named (rel : Relation.t) :
  present (Relation.inversePropertyName rel) = true ->
  exists inverse, inverseOf rel = Some inverse.
Proof.
  unfold present, inverseOf. destruct (Relation.inversePropertyName rel) as [s|];
    [|discriminate].
  intros ->. exists s. reflexivity.
Qed.

Lemma inverseNamed_resolveRelation (tableName : string)
    (targetTablesMap : gmap Z string) (rel : Relation.t) :
  inverseNamed rel -> inverseNamed (resolveRelation tableName targetTablesMap rel).
Proof. intros H. exact H. Qed.

Lemma inverseNamed_resolved (knex : Knex) (oldRelations newRelations : list Relation.t)
    (tableName : string) (relations : list Relation.t) :
  (forall rel, In rel relations -> inverseNamed rel) ->
  forall rel,
    In rel (resolved knex oldRelations newRelations tableName relations) ->
    inverseNamed rel.
Proof.
  intros Hall rel Hin. unfold resolved in Hin. apply in_map_iff in Hin.
  destruct Hin as (r & <- & Hr). apply inverseNamed_resolveRelation, Hall, Hr.
Qed.

Section Completion.

Variable getForeignKeyColumnName : string -> string.
Variable getJunctionTableName : string -> string -> JsValue -> string.
Variable getJunctionColumnNames : string -> string -> JsValue -> string * string.

Local Abbreviation typeChange :=
  (handleRelationTypeChange getForeignKeyColumnName getJunctionTableName
     getJunctionColumnNames).
Local Abbreviation updated :=
  (updatedRelation getForeignKeyColumnName getJunctionTableName
     getJunctionColumnNames).
Local Abbreviation analyze :=
  (analyzeRelationChanges getForeignKeyColumnName getJunctionTableName
     getJunctionColumnNames).

Lemma typeChange_completes (oldRel newRel : Relation.t) (tableName : string) :
  inverseNamed oldRel -> inverseNamed newRel ->
  hoare columnsReady (typeChange oldRel newRel tableName) columnsReady
    (fun _ _ => False).
Proof.
  intros Hold Hnew d Hd. unfold handleRelationTypeChange.
  rewrite typeChange_head. cbv zeta.
  destruct pushes_complete as (Hcc & Hcd & Hx & Hjc & Hjd).
  assert (HJ : columnsReady (withContainers d) /\ initialised (withContainers d)).
  { split; [exact Hd | split; eexists; reflexivity]. }
  revert HJ. generalize (withContainers d). clear d Hd. intros d HJ.
  match goal with
  | |- match ?s d with _ => _ end =>
      enough (Hb : hoare (fun d => columnsReady d /\ initialised d) s
                     (fun d => columnsReady d /\ initialised d) (fun _ _ => False))
  end.
  { specialize (Hb d HJ). cbv beta in Hb.
    match goal with
    | |- match ?o with _ => _ end => destruct o; [exact (proj1 Hb) | exact Hb]
    end. }
  clear d HJ. unfold inverseNamed in Hold, Hnew.
  destruct (String.eqb_spec (Relation.type oldRel) one_to_many) as [Ho|Ho];
    [destruct (inverseOf_named _ (Hold Ho)) as [io ->] | clear Hold];
    (destruct (String.eqb_spec (Relation.type newRel) one_to_many) as [Hn|Hn];
     [destruct (inverseOf_named _ (Hnew Hn)) as [inw ->] | clear Hnew]);
    rewrite ?andb_false_r; cbn [andb orb];
    repeat match goal with
           | |- hoare _ (if ?c then _ else _) _ _ => destruct c
           | |- hoare _ (_ ;; _) _ _ => eapply hoare_seq
           | |- hoare _ skip _ _ => apply hoare_skip
           | |- hoare _ (pushColumnsCreate _) _ _ => apply Hcc
           | |- hoare _ (pushColumnsDelete _) _ _ => apply Hcd
           | |- hoare _ (pushCrossTableOperation _) _ _ => apply Hx
           | |- hoare _ (pushJunctionCreate _) _ _ => apply Hjc
           | |- hoare _ (pushJunctionDrop _) _ _ => apply Hjd
           end.
Qed.

(** X21. When the diff has [columns.create] and [columns.delete] and every
    one-to-many relation of the old and of the new list names its inverse
    side, the analysis completes: nothing is thrown, whatever relations
    were deleted, created or changed type. *)
Theorem X21_analysis_completes (knex : Knex)
    (oldRelations newRelations : list Relation.t) (tableName : string)
    (d : Diff.t) :
  hasColumnsCreate d = true ->
  hasColumnsDelete d = true ->
  (forall rel, In rel oldRelations -> inverseNamed rel) ->
  (forall rel, In rel newRelations -> inverseNamed rel) ->
  exists d', analyze knex oldRelations newRelations tableName d = Ok d'.
Proof.
  intros Hc Hd Hold Hnew.
  destruct planner_pushes_complete as (Hcc & Hcd & Hx & Hjc & Hjd).
  assert (H : hoare columnsReady
                (analyze knex oldRelations newRelations tableName) columnsReady
                (fun _ _ => False)).
  { unfold analyzeRelationChanges. cbv zeta.
    fold (resolved knex oldRelations newRelations tableName oldRelations).
    fold (resolved knex oldRelations newRelations tableName newRelations).
    eapply hoare_seq; [|eapply hoare_seq].
    - apply handleDeletedRelations_hoare; assumption.
    - apply handleCreatedRelations_hoare; assumption.
    - unfold handleUpdatedRelations. apply hoare_forOf_in.
      intros [relId newRel] Hentry. rewrite updatedRelation_by_type. cbn [fst snd].
      destruct (JsMap.get relId _) as [oldRel|] eqn:Hget; [|apply hoare_skip].
      destruct (String.eqb _ _); [apply hoare_skip|].
      apply typeChange_completes.
      + apply relMap_get_in in Hget.
        exact (inverseNamed_resolved _ _ _ _ _ Hold _ (proj1 Hget)).
      + apply relMap_in in Hentry.
        exact (inverseNamed_resolved _ _ _ _ _ Hnew _ (proj1 Hentry)). }
  specialize (H d (conj Hc Hd)).
  destruct (analyze knex oldRelations newRelations tableName d) as [d'|e d'];
    [exists d'; reflexivity | contradiction].
Qed.

End Completion.

(** ** Particular shapes of the two lists *)

Lemma filter_none {A : Type} (f : A -> bool) (l : list A) :
  (forall x, In x l -> f x = false) -> List.filter f l = [].
Proof.
  induction l as [|x l IH]; intros H; [reflexivity|].
  cbn. rewrite (H x (or_introl eq_refl)). apply IH. intros y Hy. apply H.
  right. exact Hy.
Qed.

Lemma filter_all {A : Type} (f : A -> bool) (l : list A) :
  (forall x, In x l -> f x = true) -> List.filter f l = l.
Proof.
  induction l as [|x l IH]; intros H; [reflexivity|].
  cbn. rewrite (H x (or_introl eq_refl)). f_equal. apply IH. intros y Hy.
  apply H. right. exact Hy.
Qed.

Lemma find_map_entry (relations : list Relation.t) (k : Z) :
  List.find (fun e : Z * Relation.t => Z.eqb (fst e) k)
    (List.map (fun r => (Relation.id r, r)) relations) =
  option_map (fun r => (Relation.id r, r)) (findRelation relations k).
Proof.
  unfold findRelation. induction relations as [|r l IH]; [reflexivity|].
  cbn. destruct (Z.eqb (Relation.id r) k); [reflexivity | exact IH].
Qed.

Section Shapes.

Variable getForeignKeyColumnName : string -> string.
Variable getJunctionTableName : string -> string -> JsValue -> string.
Variable getJunctionColumnNames : string -> string -> JsValue -> string * string.

Local Abbreviation updated :=
  (updatedRelation getForeignKeyColumnName getJunctionTableName
     getJunctionColumnNames).
Local Abbreviation handleDeleted := (handleDeletedRelations getForeignKeyColumnName).
Local Abbreviation handleCreated :=
  (handleCreatedRelations getForeignKeyColumnName getJunctionTableName
     getJunctionColumnNames).
Local Abbreviation analyze :=
  (analyzeRelationChanges getForeignKeyColumnName getJunctionTableName
     getJunctionColumnNames).

(** X22. Analysing a list of relations against itself plans nothing: the
    diff is returned exactly as it was given, containers included, and
    nothing is thrown, whatever the relations (repeated ids, missing
    inverse sides and unknown types included) and whatever the diff. *)
Theorem X22_unchanged_relations_plan_nothing (knex : Knex)
    (relations : list Relation.t) (tableName : string) (d : Diff.t) :
  analyze knex relations relations tableName d = Ok d.
Proof.
  unfold analyzeRelationChanges. cbv zeta.
  fold (resolved knex relations relations tableName relations).
  set (rs := resolved knex relations relations tableName relations).
  assert (Hdel : deletedRelIds rs (relMap rs) = []).
  { unfold deletedRelIds. rewrite filter_none; [reflexivity|].
    intros r Hr. apply negb_false_iff, relMap_has, in_map, Hr. }
  assert (Hcre : createdRelIds rs (relMap rs) = []).
  { unfold createdRelIds. rewrite filter_none; [reflexivity|].
    intros r Hr. apply negb_false_iff, relMap_has, in_map, Hr. }
  rewrite Hdel, Hcre. unfold handleDeletedRelations, handleCreatedRelations.
  cbn [forOf]. rewrite !seq_skip_l. unfold handleUpdatedRelations.
  apply forOf_all_skip. intros [k v] Hentry d0.
  rewrite updatedRelation_by_type. cbn [fst snd].
  rewrite (JsMapLaws.in_get k v (relMap rs)
             (JsMapLaws.ofEntries_keys_NoDup _) Hentry).
  rewrite String.eqb_refl. reflexivity.
Qed.

(** X23. With no new relation, the analysis is the deletion planner run on
    the ids of all the old relations, in the order of the list: nothing is
    created and nothing is updated. *)
Theorem X23_only_old_relations (knex : Knex) (oldRelations : list Relation.t)
    (tableName : string) (d : Diff.t) :
  analyze knex oldRelations [] tableName d =
  handleDeleted (resolved knex oldRelations [] tableName oldRelations)
    (List.map Relation.id oldRelations) d.
Proof.
  unfold analyzeRelationChanges. cbv zeta.
  fold (resolved knex oldRelations [] tableName oldRelations).
  set (olds := resolved knex oldRelations [] tableName oldRelations).
  assert (Hdel : deletedRelIds olds (relMap []) = List.map Relation.id oldRelations).
  { unfold deletedRelIds. rewrite filter_all; [apply resolved_ids | reflexivity]. }
  change (List.map (resolveRelation tableName
            (buildTargetTablesMap knex (targetTableIds oldRelations []))) [])
    with (@nil Relation.t).
  rewrite Hdel. unfold createdRelIds. cbn [List.filter List.map].
  unfold handleCreatedRelations, handleUpdatedRelations. cbn [relMap List.map].
  change (JsMap.ofEntries (V := Relation.t) []) with (@nil (Z * Relation.t)).
  cbn [forOf]. unfold seq, skip.
  destruct (handleDeleted olds (List.map Relation.id oldRelations) d); reflexivity.
Qed.

(** X24. With no old relation, the analysis is the creation planner run on
    the ids of all the new relations, in the order of the list: nothing is
    deleted, and the update planner finds no pair. *)
Theorem X24_only_new_relations (knex : Knex) (newRelations : list Relation.t)
    (tableName : string) (d : Diff.t) :
  analyze knex [] newRelations tableName d =
  handleCreated (resolved knex [] newRelations tableName newRelations)
    (List.map Relation.id newRelations) tableName d.
Proof.
  unfold analyzeRelationChanges. cbv zeta.
  fold (resolved knex [] newRelations tableName newRelations).
  set (news := resolved knex [] newRelations tableName newRelations).
  assert (Hcre : createdRelIds news (relMap []) = List.map Relation.id newRelations).
  { unfold createdRelIds. rewrite filter_all; [apply resolved_ids | reflexivity]. }
  change (List.map (resolveRelation tableName
            (buildTargetTablesMap knex (targetTableIds [] newRelations))) [])
    with (@nil Relation.t).
  rewrite Hcre. unfold deletedRelIds. cbn [List.filter List.map].
  unfold handleDeletedRelations. cbn [forOf]. rewrite seq_skip_l.
  unfold seq.
  destruct (handleCreated news (List.map Relation.id newRelations) tableName d)
    as [d1|e d1]; [|reflexivity].
  unfold handleUpdatedRelations. apply forOf_all_skip.
  intros entry _ d0. rewrite updatedRelation_by_type. reflexivity.
Qed.

End Shapes.

(** X25. Where two relations of a list share an id, the map the update
    planner looks old relations up in holds the last of them, while the
    deletion and creation planners, which search the list, take the
    first. *)
Theorem X25_map_keeps_last_relation (relations : list Relation.t) (k : Z) :
  JsMap.get k (relMap relations) = findRelation (rev relations) k.
Proof.
  unfold relMap, JsMap.ofEntries. rewrite JsMapLaws.fold_get.
  rewrite <- List.map_rev, find_map_entry.
  destruct (findRelation (rev relations) k); reflexivity.
Qed.

(** X26. Whether or not ids repeat within a list, the deleted ids are the
    old ids that are not new ids, the created ids are the new ids that are
    not old ids, the matched ids are the ids that are both, and no id is
    matched twice. *)
Theorem X26_classifier_without_uniqueness (oldRelations newRelations : list Relation.t) :
  let oldIds := List.map Relation.id oldRelations in
  let newIds := List.map Relation.id newRelations in
  (forall i, In i (deletedRelIds oldRelations (relMap newRelations)) <->
             In i oldIds /\ ~ In i newIds) /\
  (forall i, In i (createdRelIds newRelations (relMap oldRelations)) <->
             In i newIds /\ ~ In i oldIds) /\
  (forall i, In i (matchedRelIds (relMap oldRelations) (relMap newRelations)) <->
             In i oldIds /\ In i newIds) /\
  List.NoDup (matchedRelIds (relMap oldRelations) (relMap newRelations)).
Proof.
  intros oldIds newIds. split; [|split; [|split]].
  - intros i. rewrite deletedRelIds_filter, filter_In.
    rewrite negb_true_iff, <- not_true_iff_false, relMap_has. reflexivity.
  - intros i. rewrite createdRelIds_filter, filter_In.
    rewrite negb_true_iff, <- not_true_iff_false, relMap_has. reflexivity.
  - intros i. rewrite matchedRelIds_filter, filter_In.
    rewrite <- JsMapFacts.has_keys, !relMap_has. fold oldIds newIds. tauto.
  - rewrite matchedRelIds_filter. apply List.NoDup_filter.
    unfold relMap. apply JsMapLaws.ofEntries_keys_NoDup.
Qed.

(** ** Name resolution and the lookup *)

Lemma orElse_again (o : option string) (dflt : string) :
  orElse (Some (orElse o dflt)) dflt = orElse o dflt.
Proof.
  unfold orElse. destruct o as [s|].
  - destruct (truthyString s) eqn:Hs.
    + rewrite Hs. reflexivity.
    + destruct (truthyString dflt); reflexivity.
  - destruct (truthyString dflt); reflexivity.
Qed.

Lemma fold_insert_rows (rows : list TableRow.t) (acc : gmap Z string) (i : Z)
    (name : string) :
  List.NoDup (List.map TableRow.id rows) ->
  (forall row, In row rows -> acc !! TableRow.id row = None) ->
  fold_left (fun m row => <[TableRow.id row := TableRow.name row]> m) rows acc !! i
    = Some name <->
  acc !! i = Some name \/ In (TableRow.mk i name) rows.
Proof.
  revert acc. induction rows as [|[ri rn] rows IH]; intros acc Hnd Hfresh;
    cbn [fold_left List.map In] in *.
  - tauto.
  - apply List.NoDup_cons_iff in Hnd. destruct Hnd as [Hout Hnd].
    rewrite IH; [|exact Hnd|].
    + cbn [TableRow.id TableRow.name]. rewrite lookup_insert.
      destruct (decide (ri = i)) as [->|Hne].
      * pose proof (Hfresh _ (or_introl eq_refl)) as Hnone. cbn in Hnone.
        rewrite Hnone. split.
        -- intros [[= ->]|Hin]; [right; left; reflexivity | right; right; exact Hin].
        -- intros [Hsome|[[= ->]|Hin]];
             [discriminate | left; reflexivity | right; exact Hin].
      * split.
        -- intros [Hsome|Hin]; [left; exact Hsome | right; right; exact Hin].
        -- intros [Hsome|[[= Heq _]|Hin]];
             [left; exact Hsome | contradiction | right; exact Hin].
    + intros row Hrow. cbn [TableRow.id]. rewrite lookup_insert_ne.
      * apply Hfresh. right. exact Hrow.
      * intros ->. apply Hout. cbn [TableRow.id]. apply in_map, Hrow.
Qed.

(** X27. Resolving names twice is resolving them once: a relation already
    resolved, against the same table name and the same lookup table, goes
    through unchanged. *)
Theorem X27_resolution_is_idempotent (tableName : string)
    (targetTablesMap : gmap Z string) (rel : Relation.t) :
  resolveRelation tableName targetTablesMap
    (resolveRelation tableName targetTablesMap rel) =
  resolveRelation tableName targetTablesMap rel.
Proof.
  unfold resolveRelation, targetTableIdOf.
  cbn [Relation.id Relation.propertyName Relation.type Relation.sourceTableName
         Relation.targetTable Relation.targetTableName
         Relation.inversePropertyName Relation.foreignKeyColumn
         Relation.isNullable Relation.junctionTableName].
  rewrite orElse_again. f_equal.
  destruct (truthy (Relation.targetTableName rel)) eqn:Hname.
  - rewrite Hname. reflexivity.
  - destruct (Relation.targetTable rel) as [|s|i] eqn:Htarget.
    + reflexivity.
    + destruct (truthy (Str s)); reflexivity.
    + destruct (truthyNumber i); [|reflexivity].
      destruct (truthy (mapGet targetTablesMap i)); reflexivity.
Qed.

(** X28. When some identifier is asked for and the rows returned carry
    distinct ids, the lookup table maps an id to a name exactly when the
    row (id, name) was returned. *)
Theorem X28_lookup_table_holds_the_rows (knex : Knex) (ids : list Z) (i : Z)
    (name : string) :
  ids <> [] ->
  List.NoDup (List.map TableRow.id (knex ids)) ->
  (buildTargetTablesMap knex ids !! i = Some name <->
   In (TableRow.mk i name) (knex ids)).
Proof.
  intros Hids Hnd. unfold buildTargetTablesMap.
  destruct ids as [|i0 ids]; [contradiction|]. cbn [length Nat.ltb Nat.leb].
  rewrite fold_insert_rows; [|exact Hnd|intros; apply lookup_empty].
  rewrite lookup_empty. split; [intros [H|H]; [discriminate | exact H] | auto].
Qed.

Section Lookup.

Variable getForeignKeyColumnName : string -> string.
Variable getJunctionTableName : string -> string -> JsValue -> string.
Variable getJunctionColumnNames : string -> string -> JsValue -> string * string.

Local Abbreviation analyze :=
  (analyzeRelationChanges getForeignKeyColumnName getJunctionTableName
     getJunctionColumnNames).


End Lookup.

(** ** The further properties at work on concrete relations *)

Lemma X1_witness :
  exists d',
    deletedRelation ExampleNaming.getForeignKeyColumnName
      [MoreExamples.author many_to_one] 1 freshDiff = Ok d' /\
    operationsOf d' = ([], [ColumnDrop.mk "authorId" true], [], [], [], []).
Proof.
  destruct (X1_deleted_own_foreign_key ExampleNaming.getForeignKeyColumnName
              [MoreExamples.author many_to_one] 1 (MoreExamples.author many_to_one)
              freshDiff eq_refl (or_introl eq_refl) eq_refl)
    as (d' & Hrun & Hops & _).
  exists d'. split; [exact Hrun | exact Hops].
Defined.

Lemma X2_witness :
  exists d',
    deletedRelation ExampleNaming.getForeignKeyColumnName
      [MoreExamples.posts one_to_many] 4 Examples.noColumns = Ok d' /\
    operationsOf d' =
      ([], [], [CrossTableOp.dropColumn (Str "Post") "authorId" true], [], [], []).
Proof.
  destruct (X2_deleted_one_to_many ExampleNaming.getForeignKeyColumnName
              [MoreExamples.posts one_to_many] 4 (MoreExamples.posts one_to_many)
              "author" Examples.noColumns eq_refl eq_refl eq_refl eq_refl)
    as (d' & Hrun & Hops & _).
  exists d'. split; [exact Hrun | exact Hops].
Defined.

Lemma X3_witness :
  handleDeletedRelations ExampleNaming.getForeignKeyColumnName
    [MoreExamples.comments one_to_many; MoreExamples.author many_to_one]
    ([] ++ 2%Z :: [1%Z]) freshDiff =
  handleDeletedRelations ExampleNaming.getForeignKeyColumnName
    [MoreExamples.comments one_to_many; MoreExamples.author many_to_one]
    ([] ++ [1%Z]) freshDiff.
Proof.
  exact (proj2 (X3_deleted_one_to_many_without_inverse
                  ExampleNaming.getForeignKeyColumnName
                  [MoreExamples.comments one_to_many; MoreExamples.author many_to_one]
                  2 (MoreExamples.comments one_to_many) eq_refl eq_refl eq_refl)
           [] [1%Z] freshDiff).
Defined.

Lemma X4_witness :
  exists d',
    deletedRelation ExampleNaming.getForeignKeyColumnName
      [MoreExamples.labels many_to_many] 5 Examples.noColumns = Ok d' /\
    operationsOf d' =
      ([], [], [], [], [JunctionDrop.mk (Some "post_labels") "Relation deleted"], []).
Proof.
  destruct (X4_deleted_many_to_many ExampleNaming.getForeignKeyColumnName
              [MoreExamples.labels many_to_many] 5 (MoreExamples.labels many_to_many)
              Examples.noColumns eq_refl eq_refl)
    as (d' & Hrun & Hops & _).
  exists d'. split; [exact Hrun | exact Hops].
Defined.

Lemma X5_witness :
  exists d',
    createdRelation ExampleNaming.getForeignKeyColumnName
      ExampleNaming.getJunctionTableName ExampleNaming.getJunctionColumnNames
      [MoreExamples.author one_to_one] "Post" 1 freshDiff = Ok d' /\
    operationsOf d' =
      ([ColumnDef.mk "authorId" "int" true true (Str "User") "id"], [], [], [], [], []).
Proof.
  destruct (X5_created_own_foreign_key ExampleNaming.getForeignKeyColumnName
              ExampleNaming.getJunctionTableName ExampleNaming.getJunctionColumnNames
              [MoreExamples.author one_to_one] "Post" 1
              (MoreExamples.author one_to_one) freshDiff
              eq_refl (or_intror eq_refl) eq_refl)
    as (d' & Hrun & Hops & _).
  exists d'. split; [exact Hrun | exact Hops].
Defined.

Lemma X6_witness :
  exists d',
    createdRelation ExampleNaming.getForeignKeyColumnName
      ExampleNaming.getJunctionTableName ExampleNaming.getJunctionColumnNames
      [MoreExamples.posts one_to_many] "User" 4 Examples.noColumns = Ok d' /\
    operationsOf d' =
      ([], [],
       [CrossTableOp.createColumn (Str "Post")
          (ColumnDef.mk "authorId" "int" true true (Str "User") "id")],
       [], [], []).
Proof.
  destruct (X6_created_one_to_many ExampleNaming.getForeignKeyColumnName
              ExampleNaming.getJunctionTableName ExampleNaming.getJunctionColumnNames
              [MoreExamples.posts one_to_many] "User" 4
              (MoreExamples.posts one_to_many) "author" Examples.noColumns
              eq_refl eq_refl eq_refl eq_refl)
    as (d' & Hrun & Hops & _).
  exists d'. split; [exact Hrun | exact Hops].
Defined.

Lemma X7_witness :
  exists d',
    createdRelation ExampleNaming.getForeignKeyColumnName
      ExampleNaming.getJunctionTableName ExampleNaming.getJunctionColumnNames
      [MoreExamples.labels many_to_many] "Post" 5 Examples.noColumns = Ok d' /\
    operationsOf d' =
      ([], [], [],
       [JunctionCreate.mk "Post_labels_Label" "Post" (Str "Label") "PostId" "LabelId"],
       [], []).
Proof.
  destruct (X7_created_many_to_many ExampleNaming.getForeignKeyColumnName
              ExampleNaming.getJunctionTableName ExampleNaming.getJunctionColumnNames
              [MoreExamples.labels many_to_many] "Post" 5
              (MoreExamples.labels many_to_many) Examples.noColumns
              eq_refl eq_refl)
    as (d' & Hrun & Hops & _).
  exists d'. split; [exact Hrun | exact Hops].
Defined.

Lemma X8_witness :
  deletedRelation ExampleNaming.getForeignKeyColumnName
    [MoreExamples.author "many-to-some"] 1 freshDiff = Ok freshDiff /\
  createdRelation ExampleNaming.getForeignKeyColumnName
    ExampleNaming.getJunctionTableName ExampleNaming.getJunctionColumnNames
    [MoreExamples.author "many-to-some"] "Post" 1 freshDiff = Ok freshDiff.
Proof.
  exact (X8_unknown_type_is_passed_over ExampleNaming.getForeignKeyColumnName
           ExampleNaming.getJunctionTableName ExampleNaming.getJunctionColumnNames
           [MoreExamples.author "many-to-some"] "Post" 1
           (MoreExamples.author "many-to-some") freshDiff eq_refl eq_refl).
Defined.

Lemma X9_witness :
  updatedRelation ExampleNaming.getForeignKeyColumnName
    ExampleNaming.getJunctionTableName ExampleNaming.getJunctionColumnNames
    (relMap [MoreExamples.author many_to_one]) "Post"
    (1%Z, Examples.seen (ExampleNaming.relation 1 "writer" many_to_one (Str "Person")))
    Examples.noColumns = Ok Examples.noColumns.
Proof.
  apply (X9_update_without_type_change ExampleNaming.getForeignKeyColumnName
           ExampleNaming.getJunctionTableName ExampleNaming.getJunctionColumnNames).
  intros oldRel [= <-]. reflexivity.
Defined.

Lemma X10_witness :
  exists d',
    handleRelationTypeChange ExampleNaming.getForeignKeyColumnName
      ExampleNaming.getJunctionTableName ExampleNaming.getJunctionColumnNames
      (MoreExamples.labels many_to_many) (MoreExamples.labels many_to_one)
      "Post" freshDiff = Ok d' /\
    operationsOf d' =
      ([ColumnDef.mk "labelsId" "int" true true (Str "Label") "id"], [], [], [],
       [JunctionDrop.mk (Some "post_labels")
          "Relation type changed from M2M to M2O/O2O"],
       []).
Proof.
  exact (X10_many_to_many_to_own_foreign_key ExampleNaming.getForeignKeyColumnName
           ExampleNaming.getJunctionTableName ExampleNaming.getJunctionColumnNames
           (MoreExamples.labels many_to_many) (MoreExamples.labels many_to_one)
           "Post" freshDiff eq_refl (or_introl eq_refl) eq_refl).
Defined.

Lemma X11_witness :
  exists d',
    handleRelationTypeChange ExampleNaming.getForeignKeyColumnName
      ExampleNaming.getJunctionTableName ExampleNaming.getJunctionColumnNames
      (MoreExamples.posts one_to_many) (MoreExamples.posts many_to_many)
      "User" Examples.noColumns = Ok d' /\
    operationsOf d' =
      ([], [], [CrossTableOp.dropColumn (Str "Post") "authorId" true],
       [JunctionCreate.mk "User_posts_Post" "User" (Str "Post") "UserId" "PostId"],
       [], []).
Proof.
  exact (X11_one_to_many_to_many_to_many ExampleNaming.getForeignKeyColumnName
           ExampleNaming.getJunctionTableName ExampleNaming.getJunctionColumnNames
           (MoreExamples.posts one_to_many) (MoreExamples.posts many_to_many)
           "User" "author" Examples.noColumns eq_refl eq_refl eq_refl eq_refl).
Defined.

Lemma X12_witness :
  (exists d',
     handleRelationTypeChange ExampleNaming.getForeignKeyColumnName
       ExampleNaming.getJunctionTableName ExampleNaming.getJunctionColumnNames
       (MoreExamples.labels many_to_many) (MoreExamples.posts one_to_many)
       "User" freshDiff = Ok d' /\
     operationsOf d' =
       ([], [],
        [CrossTableOp.createColumn (Str "Post")
           (ColumnDef.mk "authorId" "int" true true (Str "User") "id")],
        [],
        [JunctionDrop.mk (Some "post_labels") "Relation type changed from M2M to O2M"],
        [])) /\
  (exists d',
     handleRelationTypeChange ExampleNaming.getForeignKeyColumnName
       ExampleNaming.getJunctionTableName ExampleNaming.getJunctionColumnNames
       (MoreExamples.labels many_to_many) (MoreExamples.comments one_to_many)
       "Post" freshDiff =
       Throw (Error (missingInverseMessage "comments")) d' /\
     operationsOf d' =
       ([], [], [], [],
        [JunctionDrop.mk (Some "post_labels") "Relation type changed from M2M to O2M"],
        [])).
Proof.
  split.
  - exact (proj1 (X12_many_to_many_to_one_to_many
                    ExampleNaming.getForeignKeyColumnName
                    ExampleNaming.getJunctionTableName
                    ExampleNaming.getJunctionColumnNames
                    (MoreExamples.labels many_to_many)
                    (MoreExamples.posts one_to_many) "User" freshDiff
                    eq_refl eq_refl) "author" eq_refl eq_refl).
  - exact (proj2 (X12_many_to_many_to_one_to_many
                    ExampleNaming.getForeignKeyColumnName
                    ExampleNaming.getJunctionTableName
                    ExampleNaming.getJunctionColumnNames
                    (MoreExamples.labels many_to_many)
                    (MoreExamples.comments one_to_many) "Post" freshDiff
                    eq_refl eq_refl) eq_refl).
Defined.

Lemma X13_witness :
  (exists d',
     handleRelationTypeChange ExampleNaming.getForeignKeyColumnName
       ExampleNaming.getJunctionTableName ExampleNaming.getJunctionColumnNames
       (MoreExamples.author many_to_one) (MoreExamples.posts one_to_many)
       "User" freshDiff = Ok d' /\
     operationsOf d' =
       ([], [ColumnDrop.mk "authorId" true],
        [CrossTableOp.createColumn (Str "Post")
           (ColumnDef.mk "authorId" "int" true true (Str "User") "id")],
        [], [], [])) /\
  (exists d',
     handleRelationTypeChange ExampleNaming.getForeignKeyColumnName
       ExampleNaming.getJunctionTableName ExampleNaming.getJunctionColumnNames
       (MoreExamples.author one_to_one) (MoreExamples.comments one_to_many)
       "Post" freshDiff =
       Throw (Error (missingInverseMessage "comments")) d' /\
     operationsOf d' = ([], [ColumnDrop.mk "authorId" true], [], [], [], [])).
Proof.
  split.
  - exact (proj1 (X13_own_foreign_key_to_one_to_many
                    ExampleNaming.getForeignKeyColumnName
                    ExampleNaming.getJunctionTableName
                    ExampleNaming.getJunctionColumnNames
                    (MoreExamples.author many_to_one)
                    (MoreExamples.posts one_to_many) "User" freshDiff
                    (or_introl eq_refl) eq_refl eq_refl) "author" eq_refl eq_refl).
  - exact (proj2 (X13_own_foreign_key_to_one_to_many
                    ExampleNaming.getForeignKeyColumnName
                    ExampleNaming.getJunctionTableName
                    ExampleNaming.getJunctionColumnNames
                    (MoreExamples.author one_to_one)
                    (MoreExamples.comments one_to_many) "Post" freshDiff
                    (or_intror eq_refl) eq_refl eq_refl) eq_refl).
Defined.

Lemma X14_witness :
  (exists d',
     handleRelationTypeChange ExampleNaming.getForeignKeyColumnName
       ExampleNaming.getJunctionTableName ExampleNaming.getJunctionColumnNames
       (MoreExamples.posts one_to_many) (MoreExamples.posts many_to_one)
       "User" freshDiff = Ok d' /\
     operationsOf d' =
       ([ColumnDef.mk "postsId" "int" true true (Str "Post") "id"], [],
        [CrossTableOp.dropColumn (Str "Post") "authorId" true], [], [], [])) /\
  handleRelationTypeChange ExampleNaming.getForeignKeyColumnName
    ExampleNaming.getJunctionTableName ExampleNaming.getJunctionColumnNames
    (MoreExamples.comments one_to_many) (MoreExamples.comments one_to_one)
    "Post" Examples.noColumns =
    Throw (Error (missingInverseMessage "comments"))
      (withContainers Examples.noColumns).
Proof.
  split.
  - exact (proj1 (X14_one_to_many_to_own_foreign_key
                    ExampleNaming.getForeignKeyColumnName
                    ExampleNaming.getJunctionTableName
                    ExampleNaming.getJunctionColumnNames
                    (MoreExamples.posts one_to_many)
                    (MoreExamples.posts many_to_one) "User" freshDiff
                    eq_refl (or_introl eq_refl)) "author" eq_refl eq_refl eq_refl).
  - exact (proj1 (proj2 (X14_one_to_many_to_own_foreign_key
                           ExampleNaming.getForeignKeyColumnName
                           ExampleNaming.getJunctionTableName
                           ExampleNaming.getJunctionColumnNames
                           (MoreExamples.comments one_to_many)
                           (MoreExamples.comments one_to_one) "Post"
                           Examples.noColumns
                           eq_refl (or_intror eq_refl)) eq_refl)).
Defined.

Lemma X15_witness :
  exists d',
    handleRelationTypeChange ExampleNaming.getForeignKeyColumnName
      ExampleNaming.getJunctionTableName ExampleNaming.getJunctionColumnNames
      (MoreExamples.author one_to_one) (MoreExamples.author many_to_many)
      "Post" freshDiff = Ok d' /\
    operationsOf d' =
      ([], [ColumnDrop.mk "authorId" true], [],
       [JunctionCreate.mk "Post_author_User" "Post" (Str "User") "PostId" "UserId"],
       [], []).
Proof.
  exact (X15_one_to_one_to_many_to_many ExampleNaming.getForeignKeyColumnName
           ExampleNaming.getJunctionTableName ExampleNaming.getJunctionColumnNames
           (MoreExamples.author one_to_one) (MoreExamples.author many_to_many)
           "Post" freshDiff eq_refl eq_refl eq_refl).
Defined.

Lemma X16_witness :
  handleRelationTypeChange ExampleNaming.getForeignKeyColumnName
    ExampleNaming.getJunctionTableName ExampleNaming.getJunctionColumnNames
    (MoreExamples.author many_to_one) (MoreExamples.author "many-to-some")
    "Post" freshDiff = Ok (withContainers freshDiff) /\
  handleRelationTypeChange ExampleNaming.getForeignKeyColumnName
    ExampleNaming.getJunctionTableName ExampleNaming.getJunctionColumnNames
    (MoreExamples.comments one_to_many) (MoreExamples.posts one_to_many)
    "Post" freshDiff = Ok (withContainers freshDiff).
Proof.
  split.
  - exact (proj1 (X16_no_transition ExampleNaming.getForeignKeyColumnName
                    ExampleNaming.getJunctionTableName
                    ExampleNaming.getJunctionColumnNames
                    (MoreExamples.author many_to_one)
                    (MoreExamples.author "many-to-some") "Post" freshDiff
                    (or_intror (or_intror eq_refl)))).
  - exact (proj1 (X16_no_transition ExampleNaming.getForeignKeyColumnName
                    ExampleNaming.getJunctionTableName
                    ExampleNaming.getJunctionColumnNames
                    (MoreExamples.comments one_to_many)
                    (MoreExamples.posts one_to_many) "Post" freshDiff
                    (or_introl eq_refl))).
Defined.

Lemma X21_witness :
  exists d',
    ExampleNaming.analyze Examples.noTables
      [Examples.author many_to_one; MoreExamples.posts one_to_many]
      [Examples.author many_to_many; MoreExamples.posts many_to_one]
      "User" freshDiff = Ok d'.
Proof.
  apply (X21_analysis_completes ExampleNaming.getForeignKeyColumnName
           ExampleNaming.getJunctionTableName ExampleNaming.getJunctionColumnNames).
  - reflexivity.
  - reflexivity.
  - intros rel [<-|[<-|[]]]; unfold inverseNamed; cbn; intros H;
      [discriminate H | reflexivity].
  - intros rel [<-|[<-|[]]]; unfold inverseNamed; cbn; intros H; discriminate H.
Defined.

Lemma X28_witness :
  buildTargetTablesMap Examples.tables [7%Z] !! 7%Z = Some "Tag".
Proof.
  apply (X28_lookup_table_holds_the_rows Examples.tables [7%Z] 7 "Tag").
  - discriminate.
  - cbn. repeat constructor. intros [].
  - left. reflexivity.
Defined.

